(** * scripts/blender-batch-rescale.py: a shallow embedding

    The script runs inside Blender.  It walks the [SCALE_FACTORS] mapping,
    and for every entry that is not in [SKIP_PROPS] clears the scene,
    imports the GLB file, sets a uniform scale on every object, applies the
    scale, measures the first object and exports the scene.

    Conventions of the embedding:
    - Python exceptions are values of [exn]; a computation that may raise
      returns a [result].
    - Python floats are modelled by exact rationals [Q]: rounding,
      overflow and NaN are not represented.
    - Code that talks to Blender lives in the monad [M]: it threads the
      working scene, may raise, and writes a log of the host operators it
      called and of the lines it printed.  The scene and the log survive
      an exception, as they do in Python.
    - Name resolution follows Python's rule for a free name of a function
      defined at module level: enclosing function scopes, then the globals
      of the defining module, then the builtins. *)

From Stdlib Require Import QArith Qminmax Lqa ZArith Lia.
From stdpp Require Import base option list strings.

Local Open Scope string_scope.
Local Open Scope list_scope.

(** ** Python values and exceptions *)

Module Py.

Inductive exn : Type :=
| NameError (name : string)
| ValueError (msg : string)
| IndexError (msg : string)
| ReferenceError (msg : string)
| RuntimeError (msg : string)
| OSError (msg : string).

Inductive result (A : Type) : Type :=
| Ok (a : A)
| Raise (e : exn).
Arguments Ok {A} a.
Arguments Raise {A} e.

#[export] Instance result_ret : MRet result := fun A a => Ok a.
#[export] Instance result_bind : MBind result := fun A B k r =>
  match r with
  | Ok a => k a
  | Raise e => Raise e
  end.

(** [[f(p) for p in l]]: the elements are evaluated from left to right
    and the first exception ends the comprehension. *)
Fixpoint list_comprehension {A B : Type} (f : A -> result B) (l : list A)
  : result (list B) :=
  match l with
  | [] => Ok []
  | p :: l' =>
      y ← f p;
      ys ← list_comprehension f l';
      Ok (y :: ys)
  end.

(** A scope is the list of the names bound in it. *)
Abbreviation scope := (list string) (only parsing).

(** The builtins namespace, as far as the script refers to it (the
    builtin functions of Python 3 and the exception it names). *)
Definition builtins : scope :=
  [ "abs"; "all"; "any"; "bool"; "dict"; "enumerate"; "float"; "format";
    "int"; "isinstance"; "iter"; "len"; "list"; "map"; "max"; "min";
    "next"; "object"; "print"; "range"; "repr"; "round"; "set"; "sorted";
    "str"; "sum"; "tuple"; "type"; "zip"; "Exception" ].

Definition bound_in (x : string) (s : scope) : bool := bool_decide (x ∈ s).

(** Loading the name [x] inside a function: the enclosing function
    scopes [locals] (innermost first), then the module's globals [g],
    then the builtins; [NameError] when none of them binds it. *)
Definition load_name (locals : list scope) (g : scope) (x : string)
  : result unit :=
  if existsb (bound_in x) locals then Ok tt
  else if bound_in x g then Ok tt
  else if bound_in x builtins then Ok tt
  else Raise (NameError x).

(** [max(l)] and [min(l)] on a list of numbers: [ValueError] on the empty
    list; otherwise the running extremum, replaced only by a strictly
    larger (smaller) item. *)
Definition py_max (l : list Q) : result Q :=
  match l with
  | [] => Raise (ValueError "max() arg is an empty sequence")
  | x :: l' => Ok (fold_left Qmax l' x)
  end.

Definition py_min (l : list Q) : result Q :=
  match l with
  | [] => Raise (ValueError "min() arg is an empty sequence")
  | x :: l' => Ok (fold_left Qmin l' x)
  end.

(** [l[i]] *)
Definition py_index {A : Type} (l : list A) (i : nat) : result A :=
  match l !! i with
  | Some a => Ok a
  | None => Raise (IndexError "list index out of range")
  end.

End Py.
Export Py.

(** ** Vectors and matrices of [mathutils] *)

Module Mathutils.

Definition Vec3 : Type := Q * Q * Q.
Definition Row4 : Type := Q * Q * Q * Q.
Definition Mat4 : Type := Row4 * Row4 * Row4 * Row4.

Definition vx (v : Vec3) : Q := fst (fst v).
Definition vy (v : Vec3) : Q := snd (fst v).
Definition vz (v : Vec3) : Q := snd v.

(** A row of a 4x4 matrix applied to the point [(x, y, z, 1)]. *)
Definition row_dot (r : Row4) (v : Vec3) : Q :=
  let '(a, b, c, d) := r in
  (a * vx v + b * vy v + c * vz v + d)%Q.

(** [om @ Vector(p)] for a 4x4 matrix and a 3D vector: the vector is
    extended by a fourth coordinate 1 and the result keeps the first
    three rows. *)
Definition mat_vec (m : Mat4) (v : Vec3) : Vec3 :=
  let '(r0, r1, r2, _) := m in
  (row_dot r0 v, row_dot r1 v, row_dot r2 v).

Definition identity : Mat4 :=
  ((1, 0, 0, 0), (0, 1, 0, 0), (0, 0, 1, 0), (0, 0, 0, 1))%Q.

(** Componentwise product, the action of a scale on a local point. *)
Definition vmul (s v : Vec3) : Vec3 :=
  (vx s * vx v, vy s * vy v, vz s * vz v)%Q.

(** Right multiplication of a row by the diagonal matrix of a scale. *)
Definition row_scale (r : Row4) (s : Vec3) : Row4 :=
  let '(a, b, c, d) := r in
  (a * vx s, b * vy s, c * vz s, d)%Q.

(** [m @ Matrix.Diagonal((sx, sy, sz, 1))] *)
Definition mat_scale (m : Mat4) (s : Vec3) : Mat4 :=
  let '(r0, r1, r2, r3) := m in
  (row_scale r0 s, row_scale r1 s, row_scale r2 s, row_scale r3 s).

Definition uniform (f : Q) : Vec3 := (f, f, f).

End Mathutils.
Export Mathutils.

(** ** The host: Blender's scene and operators

    The operators are Blender's and are not part of the script.  This
    model of them is an idealisation with a stated range: every object is
    visible and selectable, has no parent, and Blender is in Object Mode,
    so that the scene operators apply to all objects and do not raise;
    only the import, the export and [os.makedirs] can fail.  Numbers are
    exact.  Statements that depend on what an operator does to the scene
    hold within that range; hidden objects, parenting, other modes and
    floating-point rounding are outside it. *)

Module Bpy.

(** [obj.bound_box]: always eight corners, in local coordinates. *)
Inductive BoundBox : Type :=
| Corners (c0 c1 c2 c3 c4 c5 c6 c7 : Vec3).

(** [obj.bound_box[:]] *)
Definition corners (b : BoundBox) : list Vec3 :=
  let 'Corners c0 c1 c2 c3 c4 c5 c6 c7 := b in
  [c0; c1; c2; c3; c4; c5; c6; c7].

Definition bbox_map (f : Vec3 -> Vec3) (b : BoundBox) : BoundBox :=
  let 'Corners c0 c1 c2 c3 c4 c5 c6 c7 := b in
  Corners (f c0) (f c1) (f c2) (f c3) (f c4) (f c5) (f c6) (f c7).

(** A scene object.  [placement] is the part of the world transform that
    does not come from [scale] (parent, location and rotation);
    [matrix_world] is the evaluated matrix as of the last update. *)
Record Object : Type := mkObject {
  name : string;
  scale : Vec3;
  placement : Mat4;
  matrix_world : Mat4;
  vertices : list Vec3;
  bound_box : BoundBox;
  selected : bool }.

(** [bpy.context.scene.objects]; a Python reference to an object is its
    position in the scene. *)
Abbreviation Scene := (list Object) (only parsing).
Abbreviation ref := nat (only parsing).

(** What the script prints, one constructor per message. *)
Inductive message : Type :=
| MsgProcessing (filename : string) (scale_factor : Q)
| MsgNotFound (path : string)
| MsgImportFailed (e : exn)
| MsgNoObjects (filename : string)
| MsgNewDimensions (dx dy dz : Q)
| MsgExported (path : string)
| MsgExportFailed (e : exn)
| MsgSkipping (filename : string)
| MsgHeader (input output : string) (props : nat)
| MsgComplete
| MsgSuccess (n : Z)
| MsgFailed (n : Z)
| MsgSkipped (n : Z)
| MsgNextSteps.

(** The log: host operators called and lines printed, in order. *)
Inductive event : Type :=
| OpMakedirs (path : string)
| OpSelectAll
| OpDelete
| OpImport (path : string)
| OpSetScale (obj : ref) (v : Vec3)
| OpViewLayerUpdate
| OpTransformApply
| OpExport (path : string)
| Print (m : message).

(** The world outside the script: the file system ([os_sep] is the path
    separator of the platform) and the two operators that the script
    guards with [try]. *)
Record Host : Type := mkHost {
  os_sep : string;
  os_path_exists : string -> bool;
  os_makedirs : string -> option exn;
  import_scene_gltf : string -> result (list Object);
  export_scene_gltf : string -> Scene -> option exn }.

Record Outcome (A : Type) : Type := mkOutcome {
  res : result A;
  scene_after : Scene;
  out : list event }.
Arguments mkOutcome {A} res scene_after out.
Arguments res {A} o.
Arguments scene_after {A} o.
Arguments out {A} o.

(** Computations over the working scene. *)
Definition M (A : Type) : Type := Scene -> Outcome A.

(** The outcome [o], after the events [log] were written. *)
Definition prepend {A : Type} (log : list event) (o : Outcome A) : Outcome A :=
  mkOutcome (res o) (scene_after o) (log ++ out o).

(** [o] followed by the continuation [k] of its value. *)
Definition and_then {A B : Type} (o : Outcome A) (k : A -> M B) : Outcome B :=
  match res o with
  | Ok a => prepend (out o) (k a (scene_after o))
  | Raise e => mkOutcome (Raise e) (scene_after o) (out o)
  end.

#[export] Instance M_ret : MRet M := fun A a s => mkOutcome (Ok a) s [].
#[export] Instance M_bind : MBind M := fun A B k m s => and_then (m s) k.

Definition raise {A : Type} (e : exn) : M A :=
  fun s => mkOutcome (Raise e) s [].

Definition lift {A : Type} (r : result A) : M A :=
  fun s => mkOutcome r s [].

(** [try: m  except Exception as e: ...]: the exception becomes a value;
    scene and log are those at the point of the raise. *)
Definition try_except {A : Type} (m : M A) : M (result A) :=
  fun s => let o := m s in mkOutcome (Ok (res o)) (scene_after o) (out o).

Definition emit (e : event) : M unit :=
  fun s => mkOutcome (Ok tt) s [e].

Definition print (m : message) : M unit := emit (Print m).

Definition get_scene : M Scene := fun s => mkOutcome (Ok s) s [].
Definition put_scene (s' : Scene) : M unit := fun _ => mkOutcome (Ok tt) s' [].

(** [for x in l: body(x)] *)
Fixpoint for_each {A : Type} (l : list A) (body : A -> M unit) : M unit :=
  match l with
  | [] => mret tt
  | x :: l' => body x ;; for_each l' body
  end.

Definition set_selected (b : bool) (o : Object) : Object :=
  mkObject (name o) (scale o) (placement o) (matrix_world o)
           (vertices o) (bound_box o) b.

Definition set_scale (v : Vec3) (o : Object) : Object :=
  mkObject (name o) v (placement o) (matrix_world o)
           (vertices o) (bound_box o) (selected o).

(** Host model: the world transform of an object without a parent is its
    placement composed with its scale component. *)
Definition evaluate (o : Object) : Object :=
  mkObject (name o) (scale o) (placement o)
           (mat_scale (placement o) (scale o))
           (vertices o) (bound_box o) (selected o).

(** Modelled from the spec: baking ("applying") the scale of an object
    writes the scale into the geometry (every vertex, hence every corner
    of the local bounding box, is multiplied by it) and resets the
    stored scale to 1.0 on all axes. *)
Definition bake_scale (o : Object) : Object :=
  evaluate
    (mkObject (name o) (uniform 1) (placement o) (matrix_world o)
              (map (vmul (scale o)) (vertices o))
              (bbox_map (vmul (scale o)) (bound_box o)) (selected o)).

(** [[obj for obj in bpy.context.scene.objects]]: references to the
    objects of the scene, not copies. *)
Definition scene_objects : M (list ref) :=
  s ← get_scene; mret (seq 0 (length s)).

(** Reading through a reference. *)
Definition deref (r : ref) : M Object :=
  s ← get_scene;
  match s !! r with
  | Some o => mret o
  | None => raise (ReferenceError "StructRNA of type Object has been removed")
  end.

(** [obj.scale = v] *)
Definition assign_scale (r : ref) (v : Vec3) : M unit :=
  _ ← deref r;
  s ← get_scene;
  put_scene (alter (set_scale v) r s) ;;
  emit (OpSetScale r v).

(** [bpy.context.view_layer.update()] *)
Definition view_layer_update : M unit :=
  s ← get_scene;
  put_scene (map evaluate s) ;;
  emit OpViewLayerUpdate.

(** [bpy.ops.object.select_all(action='SELECT')], in Object Mode on a
    scene without hidden objects. *)
Definition object_select_all : M unit :=
  s ← get_scene;
  put_scene (map (set_selected true) s) ;;
  emit OpSelectAll.

(** [bpy.ops.object.delete()]: removes the selected objects. *)
Definition object_delete : M unit :=
  s ← get_scene;
  put_scene (filter (fun o => selected o = false) s) ;;
  emit OpDelete.

(** [bpy.ops.object.transform_apply(location=False, rotation=False,
    scale=True)]: bakes the scale of the selected objects. *)
Definition object_transform_apply : M unit :=
  s ← get_scene;
  put_scene (map (fun o => if selected o then bake_scale o else o) s) ;;
  emit OpTransformApply.

(** [bpy.ops.import_scene.gltf(filepath=path)]: adds the objects of the
    file to the scene, or raises. *)
Definition import_scene_gltf_op (w : Host) (path : string) : M unit :=
  emit (OpImport path) ;;
  match import_scene_gltf w path with
  | Ok objs => s ← get_scene; put_scene (s ++ objs)
  | Raise e => raise e
  end.

(** [bpy.ops.export_scene.gltf(filepath=path, export_format='GLB',
    export_apply=True)] *)
Definition export_scene_gltf_op (w : Host) (path : string) : M unit :=
  emit (OpExport path) ;;
  s ← get_scene;
  match export_scene_gltf w path s with
  | None => mret tt
  | Some e => raise e
  end.

(** [os.path.join(dir, filename)] for a directory without a trailing
    separator and a relative file name, which is what the script joins. *)
Definition os_path_join (w : Host) (dir filename : string) : string :=
  dir +:+ os_sep w +:+ filename.

(** [os.makedirs(path, exist_ok=True)] *)
Definition makedirs (w : Host) (path : string) : M unit :=
  emit (OpMakedirs path) ;;
  match os_makedirs w path with
  | None => mret tt
  | Some e => raise e
  end.

End Bpy.
Export Bpy.

(** ** The script *)

Module Script.

(** The CONFIGURATION block of the script. *)
Record Config : Type := mkConfig {
  INPUT_DIR : string;
  OUTPUT_DIR : string;
  SCALE_FACTORS : list (string * Q);
  SKIP_PROPS : list string }.

(** The counters of [main]; Python integers. *)
Record Counts : Type := mkCounts {
  success_count : Z;
  failed_count : Z;
  skipped_count : Z }.

Definition add_success (c : Counts) : Counts :=
  mkCounts (success_count c + 1) (failed_count c) (skipped_count c).
Definition add_failed (c : Counts) : Counts :=
  mkCounts (success_count c) (failed_count c + 1) (skipped_count c).
Definition add_skipped (c : Counts) : Counts :=
  mkCounts (success_count c) (failed_count c) (skipped_count c + 1).

(** The local names of [get_bounding_dimensions] and of the lambda
    [worldify] inside it. *)
Definition get_bounding_dimensions_locals : scope :=
  ["obj"; "local_coords"; "om"; "worldify"; "coords";
   "x_coords"; "y_coords"; "z_coords"].
Definition worldify_locals : scope := ["p"].

Section Program.

(** [g]: the names bound at the top level of the module the functions
    are defined in; [cfg]: the configuration constants; [w]: the host. *)
Variable g : scope.
Variable cfg : Config.
Variable w : Host.

Definition clear_scene : M unit :=
  object_select_all ;;
  object_delete.

Definition import_glb (filepath : string) : M unit :=
  import_scene_gltf_op w filepath.

Definition export_glb (filepath : string) : M unit :=
  export_scene_gltf_op w filepath.

(** [worldify = lambda p: om @ Vector(p[:])]: [om] is a variable of the
    enclosing function, [Vector] a free name looked up when the lambda
    runs. *)
Definition worldify (om : Mat4) (p : Vec3) : result Vec3 :=
  load_name [worldify_locals; get_bounding_dimensions_locals] g "Vector" ;;
  Ok (mat_vec om p).

Definition get_bounding_dimensions (obj : Object) : result (Q * Q * Q) :=
  let local_coords := corners (bound_box obj) in
  let om := matrix_world obj in
  coords ← list_comprehension (worldify om) local_coords;
  let x_coords := map vx coords in
  let y_coords := map vy coords in
  let z_coords := map vz coords in
  let load := load_name [get_bounding_dimensions_locals] g in
  load "max" ;; x_max ← py_max x_coords;
  load "min" ;; x_min ← py_min x_coords;
  load "max" ;; y_max ← py_max y_coords;
  load "min" ;; y_min ← py_min y_coords;
  load "max" ;; z_max ← py_max z_coords;
  load "min" ;; z_min ← py_min z_coords;
  Ok ((x_max - x_min)%Q, (y_max - y_min)%Q, (z_max - z_min)%Q).

(** Lines 119-122: the scale loop. *)
Definition scale_all (objects : list ref) (scale_factor : Q) : M unit :=
  for_each objects (fun obj =>
    assign_scale obj (scale_factor, scale_factor, scale_factor) ;;
    view_layer_update).

(** Lines 124-126: apply the scale transforms. *)
Definition apply_scale : M unit :=
  object_select_all ;;
  object_transform_apply.

(** Lines 128-131: measure [objects[0]] and print the dimensions (the
    message carries the exact values; the script prints them rounded
    to three decimals). *)
Definition report_dimensions (objects : list ref) : M unit :=
  main_obj ← lift (py_index objects 0);
  o ← deref main_obj;
  dims ← lift (get_bounding_dimensions o);
  let '(dx, dy, dz) := dims in
  print (MsgNewDimensions dx dy dz).

Definition rescale_prop (filename : string) (scale_factor : Q) : M bool :=
  print (MsgProcessing filename scale_factor) ;;
  let input_path := os_path_join w (INPUT_DIR cfg) filename in
  let output_path := os_path_join w (OUTPUT_DIR cfg) filename in
  if negb (os_path_exists w input_path) then
    print (MsgNotFound input_path) ;;
    mret false
  else
    clear_scene ;;
    imported ← try_except (import_glb input_path);
    match imported with
    | Raise e =>
        print (MsgImportFailed e) ;;
        mret false
    | Ok _ =>
        objects ← scene_objects;
        match objects with
        | [] =>
            print (MsgNoObjects filename) ;;
            mret false
        | _ :: _ =>
            scale_all objects scale_factor ;;
            apply_scale ;;
            report_dimensions objects ;;
            exported ← try_except (export_glb output_path ;;
                                   print (MsgExported output_path));
            match exported with
            | Ok _ => mret true
            | Raise e =>
                print (MsgExportFailed e) ;;
                mret false
            end
        end
    end.

(** The [for] loop of [main], with the three counters it updates. *)
Fixpoint main_loop (entries : list (string * Q)) (c : Counts) : M Counts :=
  match entries with
  | [] => mret c
  | (filename, scale_factor) :: rest =>
      if bool_decide (filename ∈ SKIP_PROPS cfg) then
        print (MsgSkipping filename) ;;
        main_loop rest (add_skipped c)
      else
        ok ← rescale_prop filename scale_factor;
        if ok : bool then main_loop rest (add_success c)
        else main_loop rest (add_failed c)
  end.

(** [main]; its first statement, [from mathutils import Vector], binds
    the name [Vector] in the local scope of [main] (see [main_locals])
    and has no other effect. *)
Definition main : M unit :=
  makedirs w (OUTPUT_DIR cfg) ;;
  print (MsgHeader (INPUT_DIR cfg) (OUTPUT_DIR cfg)
                   (length (SCALE_FACTORS cfg))) ;;
  c ← main_loop (SCALE_FACTORS cfg) (mkCounts 0 0 0);
  print MsgComplete ;;
  print (MsgSuccess (success_count c)) ;;
  print (MsgFailed (failed_count c)) ;;
  print (MsgSkipped (skipped_count c)) ;;
  print MsgNextSteps.

End Program.

(** The names bound at the top level of the script: the two imports, the
    four configuration constants and the six functions (and the names
    every module has). *)
Definition module_globals : scope :=
  ["__name__"; "__doc__"; "__builtins__"; "bpy"; "os";
   "INPUT_DIR"; "OUTPUT_DIR"; "SCALE_FACTORS"; "SKIP_PROPS";
   "clear_scene"; "import_glb"; "export_glb"; "get_bounding_dimensions";
   "rescale_prop"; "main"].

(** The names bound in the body of [main]. *)
Definition main_locals : scope :=
  ["Vector"; "success_count"; "failed_count"; "skipped_count";
   "filename"; "scale_factor"].

(** The free names of the functions other than [Vector]. *)
Definition other_free_names : list string :=
  ["bpy"; "os"; "print"; "max"; "min"; "len"; "Exception";
   "INPUT_DIR"; "OUTPUT_DIR"; "SCALE_FACTORS"; "SKIP_PROPS";
   "clear_scene"; "import_glb"; "export_glb"; "get_bounding_dimensions";
   "rescale_prop"].

(** The configuration as it is written in the script. *)
Definition shipped : Config :=
  mkConfig
    "C:/Users/ihelp/sticky3d/apps/web/public/models"
    "C:/Users/ihelp/sticky3d/apps/web/public/models_rescaled"
    [ ("Computer-Mouse.glb", 1 # 10);
      ("Mousepad.glb", 3 # 10);
      ("Mug-supplies.glb", 2 # 25);
      ("Notebook.glb", 3 # 20);
      ("Pen.glb", 3 # 25);
      ("Rubber-Duck.glb", 3 # 50);
      ("Soda-Can.glb", 3 # 25);
      ("Sticky-notes-pad-thick.glb", 3 # 40);
      ("Sticky-notes-pad1.glb", 3 # 40);
      ("Tissue-Box.glb", 3 # 25);
      ("Monitor-large.glb", 3 # 5);
      ("Whiteboard1.glb", 9 # 10) ]%Q
    [ "DeskTopPlane.glb"; "lamp.glb"; "monitor_processed.glb" ].

(** The module with the import of [Vector] moved to its top level; used
    to tell what the functions compute once the name resolves. *)
Definition repaired_globals : scope := "Vector" :: module_globals.

(** Number of calls of [rescale_prop] in a log: each call starts with
    the "Processing:" message, which nothing else prints. *)
Definition is_processing (e : event) : bool :=
  match e with
  | Print (MsgProcessing _ _) => true
  | _ => false
  end.
Definition processed (log : list event) : nat :=
  length (filter (fun e => is_processing e = true) log).

(** Number of configuration entries that are in the skip list. *)
Definition in_skip_list (cfg : Config) (entry : string * Q) : bool :=
  bool_decide (entry.1 ∈ SKIP_PROPS cfg).
Definition skipped_entries (cfg : Config) : nat :=
  length (filter (fun e => in_skip_list cfg e = true) (SCALE_FACTORS cfg)).

Definition is_import_or_export (e : event) : bool :=
  match e with
  | OpImport _ | OpExport _ => true
  | _ => false
  end.

Definition is_rescale_or_export (e : event) : bool :=
  match e with
  | OpSetScale _ _ | OpViewLayerUpdate | OpTransformApply | OpExport _ => true
  | _ => false
  end.

Definition is_dimensions (e : event) : bool :=
  match e with
  | Print (MsgNewDimensions _ _ _) => true
  | _ => false
  end.

(** The sum of the three counters. *)
Definition total (c : Counts) : Z :=
  (success_count c + failed_count c + skipped_count c)%Z.

(** [input_path] and [output_path] of [rescale_prop]. *)
Definition input_path (cfg : Config) (w : Host) (filename : string) : string :=
  os_path_join w (INPUT_DIR cfg) filename.
Definition output_path (cfg : Config) (w : Host) (filename : string) : string :=
  os_path_join w (OUTPUT_DIR cfg) filename.

(** The three ways in which processing one entry fails: the input file
    is missing; the import operator raises; the export operator is
    called and raises (on the scene it is called with, which is the
    scene the call ends with). *)
Inductive asset_failure (g : scope) (cfg : Config) (w : Host)
          (filename : string) (scale_factor : Q) (s : Scene) : Prop :=
| missing_input :
    os_path_exists w (input_path cfg w filename) = false ->
    asset_failure g cfg w filename scale_factor s
| import_raises (e : exn) :
    os_path_exists w (input_path cfg w filename) = true ->
    import_scene_gltf w (input_path cfg w filename) = Raise e ->
    asset_failure g cfg w filename scale_factor s
| export_raises (e : exn) :
    OpExport (output_path cfg w filename)
      ∈ out (rescale_prop g cfg w filename scale_factor s) ->
    export_scene_gltf w (output_path cfg w filename)
      (scene_after (rescale_prop g cfg w filename scale_factor s)) = Some e ->
    asset_failure g cfg w filename scale_factor s.

(** The greatest and the least element of a list of numbers. *)
Definition is_max (m : Q) (l : list Q) : Prop :=
  m ∈ l /\ forall x, x ∈ l -> (x <= m)%Q.
Definition is_min (m : Q) (l : list Q) : Prop :=
  m ∈ l /\ forall x, x ∈ l -> (m <= x)%Q.

(** The corners of an object in world space. *)
Definition world_corners (obj : Object) : list Vec3 :=
  map (mat_vec (matrix_world obj)) (corners (bound_box obj)).

End Script.
Export Script.

(** ** Reference behaviour of the rescale step, and sample data *)

Module Samples.

(** What lines 119-126 make of an imported object: the scale is
    overwritten by the factor, the object is evaluated, selected, and
    its scale baked. *)
Definition rescaled (scale_factor : Q) (o : Object) : Object :=
  bake_scale (set_selected true (evaluate (set_scale (uniform scale_factor) o))).

(** The log of the scale loop over the references [i, i+1, ..]. *)
Definition scale_events (scale_factor : Q) (objects : list ref) : list event :=
  flat_map (fun obj => [OpSetScale obj (uniform scale_factor); OpViewLayerUpdate])
           objects.

Definition half : Q := 1 # 2.

Definition cube_corners (h : Q) : BoundBox :=
  Corners (- h, - h, - h)%Q (- h, - h, h)%Q (- h, h, h)%Q (- h, h, - h)%Q
          (h, - h, - h)%Q (h, - h, h)%Q (h, h, h)%Q (h, h, - h)%Q.

(** The unit cube: corners at +-0.5 on each axis, identity world
    transform. *)
Definition unit_cube : Object :=
  mkObject "Cube" (uniform 1) identity identity
           (corners (cube_corners half)) (cube_corners half) false.

(** A second object, twice as large and moved along x. *)
Definition big_box : Object :=
  mkObject "Box" (uniform 1)
           ((1, 0, 0, 5), (0, 1, 0, 0), (0, 0, 1, 0), (0, 0, 0, 1))%Q
           ((1, 0, 0, 5), (0, 1, 0, 0), (0, 0, 1, 0), (0, 0, 0, 1))%Q
           (corners (cube_corners 1)) (cube_corners 1) false.

Fixpoint assoc {A : Type} (k : string) (l : list (string * A)) : option A :=
  match l with
  | [] => None
  | (k', v) :: l' => if bool_decide (k = k') then Some v else assoc k l'
  end.

(** A host whose input directory holds the given files (path and what
    importing it does), and where exporting to a path of [bad] fails. *)
Definition host_with (files : list (string * result (list Object)))
           (bad : list string) : Host :=
  mkHost "/"
         (fun p => bool_decide (p ∈ files.*1))
         (fun _ => None)
         (fun p => match assoc p files with
                   | Some r => r
                   | None => Raise (OSError "No such file or directory")
                   end)
         (fun p _ => if bool_decide (p ∈ bad)
                     then Some (RuntimeError "export failed") else None).

Definition input_file (filename : string) : string :=
  INPUT_DIR shipped +:+ "/" +:+ filename.
Definition output_file (filename : string) : string :=
  OUTPUT_DIR shipped +:+ "/" +:+ filename.

(** Nothing in the input directory. *)
Definition empty_host : Host := host_with [] [].

(** The first configured file is there and holds the unit cube. *)
Definition mouse_host : Host :=
  host_with [(input_file "Computer-Mouse.glb", Ok [unit_cube])] [].

(** A file with two objects. *)
Definition two_part_host : Host :=
  host_with [(input_file "Pen.glb", Ok [unit_cube; big_box])] [].

(** A file that imports but cannot be exported. *)
Definition read_only_host : Host :=
  host_with [(input_file "Pen.glb", Ok [unit_cube])] [output_file "Pen.glb"].

(** A file that imports no object, and one that fails to import. *)
Definition odd_host : Host :=
  host_with [(input_file "Pen.glb", Ok []);
             (input_file "Mousepad.glb", Raise (RuntimeError "bad file"))] [].

End Samples.
Export Samples.

(** ** Reading the log *)

Module Log.

(** Number of events of a log that satisfy [p]. *)
Definition tally (p : event -> bool) (log : list event) : nat :=
  length (List.filter p log).

(** The "Exported:" line of a successful call. *)
Definition is_exported (e : event) : bool :=
  match e with
  | Print (MsgExported _) => true
  | _ => false
  end.

(** The four lines that announce a failed call. *)
Definition is_failure (e : event) : bool :=
  match e with
  | Print (MsgNotFound _) | Print (MsgImportFailed _)
  | Print (MsgNoObjects _) | Print (MsgExportFailed _) => true
  | _ => false
  end.

(** The "Skipping" line of the loop. *)
Definition is_skipping (e : event) : bool :=
  match e with
  | Print (MsgSkipping _) => true
  | _ => false
  end.

(** The lines of the final summary. *)
Definition is_summary (e : event) : bool :=
  match e with
  | Print MsgComplete | Print (MsgSuccess _) | Print (MsgFailed _)
  | Print (MsgSkipped _) | Print MsgNextSteps => true
  | _ => false
  end.

(** A call of a host operator on the scene or on a file. *)
Definition is_operator (e : event) : bool :=
  match e with
  | OpSelectAll | OpDelete | OpImport _ | OpSetScale _ _
  | OpViewLayerUpdate | OpTransformApply | OpExport _ => true
  | _ => false
  end.

Definition is_export (e : event) : bool :=
  match e with
  | OpExport _ => true
  | _ => false
  end.

(** The file names of the "Processing:" messages of a log, in order: the
    calls of [rescale_prop]. *)
Definition processed_names (log : list event) : list string :=
  flat_map (fun e => match e with
                     | Print (MsgProcessing filename _) => [filename]
                     | _ => []
                     end) log.

(** The file names of the entries that the loop does not skip, in the
    order of the configuration. *)
Definition names_to_process (cfg : Config) (entries : list (string * Q))
  : list string :=
  map fst (List.filter (fun e => negb (in_skip_list cfg e)) entries).

(** [Vector] resolves where [worldify] looks it up. *)
Definition vector_resolves (g : scope) : Prop :=
  load_name [worldify_locals; get_bounding_dimensions_locals] g "Vector" = Ok tt.

(** The six ways a call of [rescale_prop] on [filename] can end: the
    outcome, with the facts about the host that lead to it. *)
Inductive call_shape (g : scope) (cfg : Config) (w : Host) (filename : string)
          (f : Q) (s : Scene) : Outcome bool -> Prop :=
| shape_missing :
    os_path_exists w (input_path cfg w filename) = false ->
    call_shape g cfg w filename f s
      (mkOutcome (Ok false) s
         [Print (MsgProcessing filename f);
          Print (MsgNotFound (input_path cfg w filename))])
| shape_import_failed (e : exn) :
    os_path_exists w (input_path cfg w filename) = true ->
    import_scene_gltf w (input_path cfg w filename) = Raise e ->
    call_shape g cfg w filename f s
      (mkOutcome (Ok false) []
         [Print (MsgProcessing filename f); OpSelectAll; OpDelete;
          OpImport (input_path cfg w filename); Print (MsgImportFailed e)])
| shape_no_objects :
    os_path_exists w (input_path cfg w filename) = true ->
    import_scene_gltf w (input_path cfg w filename) = Ok [] ->
    call_shape g cfg w filename f s
      (mkOutcome (Ok false) []
         [Print (MsgProcessing filename f); OpSelectAll; OpDelete;
          OpImport (input_path cfg w filename); Print (MsgNoObjects filename)])
| shape_measure_raised (o : Object) (os : list Object) (e : exn) :
    os_path_exists w (input_path cfg w filename) = true ->
    import_scene_gltf w (input_path cfg w filename) = Ok (o :: os) ->
    get_bounding_dimensions g (rescaled f o) = Raise e ->
    call_shape g cfg w filename f s
      (mkOutcome (Raise e) (map (rescaled f) (o :: os))
         ([Print (MsgProcessing filename f); OpSelectAll; OpDelete;
           OpImport (input_path cfg w filename)]
          ++ scale_events f (seq 0 (length (o :: os)))
          ++ [OpSelectAll; OpTransformApply]))
| shape_exported (o : Object) (os : list Object) (dx dy dz : Q) :
    os_path_exists w (input_path cfg w filename) = true ->
    import_scene_gltf w (input_path cfg w filename) = Ok (o :: os) ->
    get_bounding_dimensions g (rescaled f o) = Ok (dx, dy, dz) ->
    export_scene_gltf w (output_path cfg w filename)
                      (map (rescaled f) (o :: os)) = None ->
    call_shape g cfg w filename f s
      (mkOutcome (Ok true) (map (rescaled f) (o :: os))
         ([Print (MsgProcessing filename f); OpSelectAll; OpDelete;
           OpImport (input_path cfg w filename)]
          ++ scale_events f (seq 0 (length (o :: os)))
          ++ [OpSelectAll; OpTransformApply;
              Print (MsgNewDimensions dx dy dz);
              OpExport (output_path cfg w filename);
              Print (MsgExported (output_path cfg w filename))]))
| shape_export_failed (o : Object) (os : list Object) (dx dy dz : Q) (e : exn) :
    os_path_exists w (input_path cfg w filename) = true ->
    import_scene_gltf w (input_path cfg w filename) = Ok (o :: os) ->
    get_bounding_dimensions g (rescaled f o) = Ok (dx, dy, dz) ->
    export_scene_gltf w (output_path cfg w filename)
                      (map (rescaled f) (o :: os)) = Some e ->
    call_shape g cfg w filename f s
      (mkOutcome (Ok false) (map (rescaled f) (o :: os))
         ([Print (MsgProcessing filename f); OpSelectAll; OpDelete;
           OpImport (input_path cfg w filename)]
          ++ scale_events f (seq 0 (length (o :: os)))
          ++ [OpSelectAll; OpTransformApply;
              Print (MsgNewDimensions dx dy dz);
              OpExport (output_path cfg w filename);
              Print (MsgExportFailed e)])).

End Log.
Export Log.

(** * Properties *)

(** ** Running the monad *)

Lemma run_bind {A B : Type} (m : M A) (k : A -> M B) (s : Scene) :
  (m ≫= k) s = and_then (m s) k.
Proof. reflexivity. Qed.

Lemma and_then_ok {A B : Type} (a : A) (s : Scene) (l : list event) (k : A -> M B) :
  and_then (mkOutcome (Ok a) s l) k = prepend l (k a s).
Proof. reflexivity. Qed.

Lemma prepend_outcome {A : Type} (l l' : list event) (r : result A) (s : Scene) :
  prepend l (mkOutcome r s l') = mkOutcome r s (l ++ l').
Proof. reflexivity. Qed.

(** Unfolds the monad operations in the goal and computes the outcome. *)
Ltac run_M :=
  unfold mbind, mret, M_bind, M_ret, and_then, prepend, get_scene, put_scene,
    emit, print, raise, lift, try_except;
  cbn [res scene_after out app].

(** ** Host operators *)

Lemma clear_scene_run (s : Scene) :
  clear_scene s = mkOutcome (Ok tt) [] [OpSelectAll; OpDelete].
Proof.
  unfold clear_scene, object_select_all, object_delete. run_M.
  f_equal.
  induction s as [|o s IH]; [done|].
  cbn [map]. rewrite filter_cons_False; [exact IH | cbn; congruence].
Qed.

Lemma deref_run (r : ref) (o : Object) (s : Scene) :
  s !! r = Some o -> deref r s = mkOutcome (Ok o) s [].
Proof. intros H. unfold deref. run_M. rewrite H. reflexivity. Qed.

Lemma assign_scale_run (r : ref) (v : Vec3) (o : Object) (s : Scene) :
  s !! r = Some o ->
  assign_scale r v s = mkOutcome (Ok tt) (alter (set_scale v) r s) [OpSetScale r v].
Proof.
  intros H. unfold assign_scale. rewrite run_bind, (deref_run r o s H).
  reflexivity.
Qed.

Lemma view_layer_update_run (s : Scene) :
  view_layer_update s = mkOutcome (Ok tt) (map evaluate s) [OpViewLayerUpdate].
Proof. reflexivity. Qed.

Lemma scale_all_cons (r : ref) (rs : list ref) (f : Q) (s : Scene) :
  scale_all (r :: rs) f s
  = and_then (and_then (assign_scale r (uniform f) s) (fun _ => view_layer_update))
             (fun _ => scale_all rs f).
Proof. reflexivity. Qed.

(** The scale loop: when it has reached the reference [length done], the
    objects before it are evaluated with their new scale, and it leaves
    every remaining object with the new scale, evaluated. *)
Lemma scale_all_run (f : Q) (n : nat) :
  forall todo done : list Object,
    length todo = n ->
    Forall (fun o => evaluate o = o) done ->
    scale_all (seq (length done) n) f (done ++ todo)
    = mkOutcome (Ok tt)
        (done ++ map (fun o => evaluate (set_scale (uniform f) o)) todo)
        (scale_events f (seq (length done) n)).
Proof.
  induction n as [|n IH]; intros todo done Hlen Hdone.
  - destruct todo; [reflexivity | discriminate].
  - destruct todo as [|o todo]; [discriminate|].
    injection Hlen as Hlen.
    cbn [seq]. rewrite scale_all_cons.
    rewrite (assign_scale_run _ _ o) by (by apply list_lookup_middle).
    rewrite and_then_ok, view_layer_update_run, prepend_outcome. cbn [app].
    rewrite <- (Nat.add_0_r (length done)) at 1.
    rewrite alter_app_r. cbn [alter list_alter].
    rewrite map_app. cbn [map].
    assert (Hfix : map evaluate done = done).
    { clear -Hdone. induction Hdone as [|x l Hx _ IHl]; [done|].
      cbn. by rewrite Hx, IHl. }
    rewrite Hfix.
    set (o' := evaluate (set_scale (uniform f) o)).
    assert (Hpre : Forall (fun o => evaluate o = o) (done ++ [o'])).
    { apply Forall_app. split; [exact Hdone|]. by constructor. }
    specialize (IH (map evaluate todo) (done ++ [o'])).
    rewrite length_app, length_map in IH. cbn [length] in IH.
    rewrite Nat.add_1_r, <- app_assoc in IH. cbn [app] in IH.
    specialize (IH Hlen Hpre).
    rewrite and_then_ok, IH, prepend_outcome. cbn [app].
    rewrite map_map, <- app_assoc. reflexivity.
Qed.

Lemma apply_scale_run (s : Scene) :
  apply_scale s
  = mkOutcome (Ok tt) (map (fun o => bake_scale (set_selected true o)) s)
              [OpSelectAll; OpTransformApply].
Proof.
  unfold apply_scale, object_select_all, object_transform_apply. run_M.
  rewrite map_map. reflexivity.
Qed.

Lemma print_run (m : message) (s : Scene) :
  print m s = mkOutcome (Ok tt) s [Print m].
Proof. reflexivity. Qed.

Lemma import_glb_run (w : Host) (path : string) (s : Scene) :
  import_glb w path s
  = match import_scene_gltf w path with
    | Ok objs => mkOutcome (Ok tt) (s ++ objs) [OpImport path]
    | Raise e => mkOutcome (Raise e) s [OpImport path]
    end.
Proof.
  unfold import_glb, import_scene_gltf_op. run_M.
  destruct (import_scene_gltf w path); reflexivity.
Qed.

Lemma export_glb_run (w : Host) (path : string) (s : Scene) :
  export_glb w path s
  = match export_scene_gltf w path s with
    | None => mkOutcome (Ok tt) s [OpExport path]
    | Some e => mkOutcome (Raise e) s [OpExport path]
    end.
Proof.
  unfold export_glb, export_scene_gltf_op. run_M.
  destruct (export_scene_gltf w path s); reflexivity.
Qed.

Lemma report_dimensions_run (g : scope) (o : Object) (os : list Object) :
  report_dimensions g (seq 0 (length (o :: os))) (o :: os)
  = match get_bounding_dimensions g o with
    | Ok (dx, dy, dz) =>
        mkOutcome (Ok tt) (o :: os) [Print (MsgNewDimensions dx dy dz)]
    | Raise e => mkOutcome (Raise e) (o :: os) []
    end.
Proof.
  unfold report_dimensions, deref. run_M. cbn.
  destruct (get_bounding_dimensions g o) as [[[dx dy] dz]|e]; reflexivity.
Qed.

Lemma scene_objects_run (s : Scene) :
  scene_objects s = mkOutcome (Ok (seq 0 (length s))) s [].
Proof. reflexivity. Qed.

Lemma try_except_run {A : Type} (m : M A) (s : Scene) :
  try_except m s = mkOutcome (Ok (res (m s))) (scene_after (m s)) (out (m s)).
Proof. reflexivity. Qed.

Section RescaleProp.

Variable g : scope.
Variable cfg : Config.
Variable w : Host.
Variable filename : string.
Variable scale_factor : Q.

Let input_path := os_path_join w (INPUT_DIR cfg) filename.
Let output_path := os_path_join w (OUTPUT_DIR cfg) filename.

(** The log of a call up to and including the import. *)
Let import_log : list event :=
  [Print (MsgProcessing filename scale_factor);
   OpSelectAll; OpDelete; OpImport input_path].

Lemma rescale_prop_missing (s : Scene) :
  os_path_exists w input_path = false ->
  rescale_prop g cfg w filename scale_factor s
  = mkOutcome (Ok false) s
      [Print (MsgProcessing filename scale_factor);
       Print (MsgNotFound input_path)].
Proof.
  intros H. unfold rescale_prop. fold input_path. rewrite run_bind, print_run.
  rewrite and_then_ok, H. reflexivity.
Qed.

Lemma rescale_prop_import_raises (s : Scene) (e : exn) :
  os_path_exists w input_path = true ->
  import_scene_gltf w input_path = Raise e ->
  rescale_prop g cfg w filename scale_factor s
  = mkOutcome (Ok false) [] (import_log ++ [Print (MsgImportFailed e)]).
Proof.
  intros H Himp. unfold rescale_prop. fold input_path.
  rewrite run_bind, print_run, and_then_ok, H. cbn [negb].
  rewrite run_bind, clear_scene_run, and_then_ok.
  rewrite run_bind, try_except_run, import_glb_run, Himp. reflexivity.
Qed.

Lemma rescale_prop_no_objects (s : Scene) :
  os_path_exists w input_path = true ->
  import_scene_gltf w input_path = Ok [] ->
  rescale_prop g cfg w filename scale_factor s
  = mkOutcome (Ok false) [] (import_log ++ [Print (MsgNoObjects filename)]).
Proof.
  intros H Himp. unfold rescale_prop. fold input_path.
  rewrite run_bind, print_run, and_then_ok, H. cbn [negb].
  rewrite run_bind, clear_scene_run, and_then_ok.
  rewrite run_bind, try_except_run, import_glb_run, Himp. reflexivity.
Qed.

Lemma rescale_prop_imported (s : Scene) (o : Object) (os : list Object) :
  os_path_exists w input_path = true ->
  import_scene_gltf w input_path = Ok (o :: os) ->
  rescale_prop g cfg w filename scale_factor s
  = let scene := map (rescaled scale_factor) (o :: os) in
    let log := import_log
               ++ scale_events scale_factor (seq 0 (length (o :: os)))
               ++ [OpSelectAll; OpTransformApply] in
    match get_bounding_dimensions g (rescaled scale_factor o) with
    | Raise e => mkOutcome (Raise e) scene log
    | Ok (dx, dy, dz) =>
        match export_scene_gltf w output_path scene with
        | None =>
            mkOutcome (Ok true) scene
              (log ++ [Print (MsgNewDimensions dx dy dz);
                       OpExport output_path; Print (MsgExported output_path)])
        | Some e =>
            mkOutcome (Ok false) scene
              (log ++ [Print (MsgNewDimensions dx dy dz);
                       OpExport output_path; Print (MsgExportFailed e)])
        end
    end.
Proof.
  intros H Himp. unfold rescale_prop. fold input_path output_path.
  rewrite run_bind, print_run, and_then_ok, H. cbn [negb].
  rewrite run_bind, clear_scene_run, and_then_ok.
  rewrite run_bind, try_except_run, import_glb_run, Himp.
  cbn [res scene_after out app]. rewrite and_then_ok.
  rewrite run_bind, scene_objects_run, and_then_ok. cbn [length seq].
  pose proof (Hloop := scale_all_run scale_factor (length (o :: os))
                         (o :: os) [] eq_refl (List.Forall_nil _)).
  cbn [length seq app] in Hloop.
  rewrite run_bind, Hloop, and_then_ok.
  rewrite run_bind, apply_scale_run, and_then_ok, map_map.
  change (map _ (o :: os)) with (map (rescaled scale_factor) (o :: os)).
  pose proof (Hdims := report_dimensions_run g (rescaled scale_factor o)
                         (map (rescaled scale_factor) os)).
  cbn [length seq] in Hdims. rewrite length_map in Hdims.
  cbn [map]. rewrite run_bind, Hdims.
  destruct (get_bounding_dimensions g (rescaled scale_factor o))
    as [[[dx dy] dz]|e].
  - rewrite and_then_ok, run_bind, try_except_run, run_bind, export_glb_run.
    destruct (export_scene_gltf w output_path _);
      run_M; unfold import_log; cbn [app];
      rewrite <- ?app_assoc; reflexivity.
  - run_M. unfold import_log. cbn [app]. reflexivity.
Qed.

End RescaleProp.

(** ** Name resolution *)

Lemma other_names_resolve :
  Forall (fun x => load_name [] module_globals x = Ok tt) other_free_names.
Proof. repeat constructor. Qed.

Lemma vector_unbound :
  load_name [worldify_locals; get_bounding_dimensions_locals]
            module_globals "Vector" = Raise (NameError "Vector").
Proof. reflexivity. Qed.

Lemma vector_bound_when_repaired :
  load_name [worldify_locals; get_bounding_dimensions_locals]
            repaired_globals "Vector" = Ok tt.
Proof. reflexivity. Qed.

(** When the lambda cannot resolve [Vector], the comprehension raises on
    the first of the eight corners. *)
Lemma get_bounding_dimensions_unbound (g : scope) (obj : Object) :
  load_name [worldify_locals; get_bounding_dimensions_locals] g "Vector"
  = Raise (NameError "Vector") ->
  get_bounding_dimensions g obj = Raise (NameError "Vector").
Proof.
  intros H. unfold get_bounding_dimensions.
  destruct (bound_box obj). cbn [corners list_comprehension].
  unfold worldify. rewrite H. reflexivity.
Qed.

Lemma get_bounding_dimensions_shipped (obj : Object) :
  get_bounding_dimensions module_globals obj = Raise (NameError "Vector").
Proof. apply get_bounding_dimensions_unbound, vector_unbound. Qed.

(** ** The loop of [main] *)

Section MainLoop.

Variable g : scope.
Variable cfg : Config.
Variable w : Host.

Lemma main_loop_skip (filename : string) (f : Q) (rest : list (string * Q))
      (c : Counts) (s : Scene) :
  filename ∈ SKIP_PROPS cfg ->
  main_loop g cfg w ((filename, f) :: rest) c s
  = prepend [Print (MsgSkipping filename)]
            (main_loop g cfg w rest (add_skipped c) s).
Proof.
  intros H. cbn [main_loop]. rewrite bool_decide_eq_true_2 by exact H.
  reflexivity.
Qed.

Lemma main_loop_step (filename : string) (f : Q) (rest : list (string * Q))
      (c : Counts) (s : Scene) :
  filename ∉ SKIP_PROPS cfg ->
  main_loop g cfg w ((filename, f) :: rest) c s
  = and_then (rescale_prop g cfg w filename f s)
      (fun ok : bool => if ok then main_loop g cfg w rest (add_success c)
                        else main_loop g cfg w rest (add_failed c)).
Proof.
  intros H. cbn [main_loop]. rewrite bool_decide_eq_false_2 by exact H.
  reflexivity.
Qed.

(** An entry whose call returns [False] is counted as failed and the
    loop goes on with the entries that follow. *)
Lemma main_loop_failed (filename : string) (f : Q) (rest : list (string * Q))
      (c : Counts) (s : Scene) :
  filename ∉ SKIP_PROPS cfg ->
  res (rescale_prop g cfg w filename f s) = Ok false ->
  main_loop g cfg w ((filename, f) :: rest) c s
  = prepend (out (rescale_prop g cfg w filename f s))
      (main_loop g cfg w rest (add_failed c)
                 (scene_after (rescale_prop g cfg w filename f s))).
Proof.
  intros H Hres. rewrite main_loop_step by exact H.
  unfold and_then. rewrite Hres. reflexivity.
Qed.

(** A loop that runs to its end adds one to exactly one counter per
    entry, and never decreases one. *)
Lemma main_loop_counts (entries : list (string * Q)) :
  forall (c c' : Counts) (s : Scene),
    res (main_loop g cfg w entries c s) = Ok c' ->
    (total c' = total c + Z.of_nat (length entries)
     /\ success_count c <= success_count c'
     /\ failed_count c <= failed_count c'
     /\ skipped_count c <= skipped_count c')%Z.
Proof.
  induction entries as [|[filename f] rest IH]; intros c c' s Hres.
  - cbn in Hres. injection Hres as <-. cbn [length]. lia.
  - destruct (decide (filename ∈ SKIP_PROPS cfg)) as [Hin|Hout].
    + rewrite main_loop_skip in Hres by exact Hin.
      apply IH in Hres. unfold total in *. cbn in Hres |- *. lia.
    + rewrite main_loop_step in Hres by exact Hout.
      destruct (rescale_prop g cfg w filename f s) as [[[|]|e] s' l];
        rewrite ?and_then_ok in Hres; try discriminate Hres;
        apply IH in Hres; unfold total in *; cbn in Hres |- *; lia.
Qed.

End MainLoop.

(** ** What a call of [rescale_prop] writes to the log *)

Lemma scale_events_no_export (f : Q) (objects : list ref) (path : string) :
  OpExport path ∉ scale_events f objects.
Proof.
  induction objects as [|r rs IH]; cbn.
  - apply not_elem_of_nil.
  - rewrite !not_elem_of_cons. repeat split; [discriminate..|exact IH].
Qed.

(** The export operator is only called after a successful import of at
    least one object and a successful measurement. *)
Lemma export_called (g : scope) (cfg : Config) (w : Host) (filename : string)
      (f : Q) (s : Scene) :
  OpExport (output_path cfg w filename) ∈ out (rescale_prop g cfg w filename f s) ->
  exists o os dx dy dz,
    os_path_exists w (input_path cfg w filename) = true
    /\ import_scene_gltf w (input_path cfg w filename) = Ok (o :: os)
    /\ get_bounding_dimensions g (rescaled f o) = Ok (dx, dy, dz).
Proof.
  unfold input_path, output_path. intros Hin.
  destruct (os_path_exists w (os_path_join w (INPUT_DIR cfg) filename)) eqn:Hex.
  - destruct (import_scene_gltf w (os_path_join w (INPUT_DIR cfg) filename))
      as [[|o os]|e] eqn:Himp.
    + rewrite (rescale_prop_no_objects g cfg w filename f s Hex Himp) in Hin.
      cbn in Hin. rewrite !elem_of_cons, elem_of_nil in Hin.
      intuition congruence.
    + rewrite (rescale_prop_imported g cfg w filename f s o os Hex Himp) in Hin.
      cbv zeta in Hin.
      destruct (get_bounding_dimensions g (rescaled f o))
        as [[[dx dy] dz]|e] eqn:Hdims.
      * exists o, os, dx, dy, dz. auto.
      * exfalso. cbn [out] in Hin.
        rewrite !elem_of_app, !elem_of_cons, elem_of_nil in Hin.
        pose proof (scale_events_no_export f (seq 0 (length (o :: os)))
                      (os_path_join w (OUTPUT_DIR cfg) filename)).
        intuition congruence.
    + rewrite (rescale_prop_import_raises g cfg w filename f s e Hex Himp) in Hin.
      cbn in Hin. rewrite !elem_of_cons, elem_of_nil in Hin.
      intuition congruence.
  - rewrite (rescale_prop_missing g cfg w filename f s Hex) in Hin.
    cbn in Hin. rewrite !elem_of_cons, elem_of_nil in Hin.
    intuition congruence.
Qed.

(** Each of the three failures makes the call return [False]; none of
    them leaves the call by an exception. *)
Lemma asset_failure_returns_false (g : scope) (cfg : Config) (w : Host)
      (filename : string) (f : Q) (s : Scene) :
  asset_failure g cfg w filename f s ->
  res (rescale_prop g cfg w filename f s) = Ok false.
Proof.
  intros [Hex|e Hex Himp|e Hin Hexp].
  - unfold input_path in Hex. by rewrite rescale_prop_missing.
  - unfold input_path in *. by rewrite (rescale_prop_import_raises _ _ _ _ _ _ e).
  - destruct (export_called _ _ _ _ _ _ Hin)
      as (o & os & dx & dy & dz & Hex & Himp & Hdims).
    unfold input_path, output_path in *.
    rewrite (rescale_prop_imported g cfg w filename f s o os Hex Himp) in Hexp |- *.
    cbv zeta in Hexp |- *. rewrite Hdims in Hexp |- *.
    destruct (export_scene_gltf w (os_path_join w (OUTPUT_DIR cfg) filename)
                (map (rescaled f) (o :: os))) eqn:Hw.
    + reflexivity.
    + cbn [scene_after] in Hexp. congruence.
Qed.

(** ** Per-asset failures *)

(** C1: when processing an entry fails because the input file is missing,
    the import operator raises or the export operator raises, the call of
    [rescale_prop] returns [False] instead of raising, the loop of [main]
    adds one to the failed counter and goes on with the next entries. *)
Theorem C1_asset_failure_is_counted_and_batch_continues
        (g : scope) (cfg : Config) (w : Host) (filename : string) (f : Q)
        (rest : list (string * Q)) (c : Counts) (s : Scene) :
  filename ∉ SKIP_PROPS cfg ->
  asset_failure g cfg w filename f s ->
  res (rescale_prop g cfg w filename f s) = Ok false
  /\ main_loop g cfg w ((filename, f) :: rest) c s
     = prepend (out (rescale_prop g cfg w filename f s))
         (main_loop g cfg w rest (add_failed c)
                    (scene_after (rescale_prop g cfg w filename f s)))
  /\ failed_count (add_failed c) = (failed_count c + 1)%Z.
Proof.
  intros Hskip Hfail.
  pose proof (Hres := asset_failure_returns_false _ _ _ _ _ _ Hfail).
  split; [exact Hres|]. split; [|reflexivity].
  by apply main_loop_failed.
Qed.

Lemma C1_witness :
  ("Pen.glb" ∉ SKIP_PROPS shipped)
  /\ asset_failure module_globals shipped empty_host "Pen.glb" (3 # 25) []
  /\ res (rescale_prop module_globals shipped empty_host "Pen.glb" (3 # 25) [])
     = Ok false
  /\ main_loop module_globals shipped empty_host
               [("Pen.glb", 3 # 25); ("Mousepad.glb", 3 # 10)] (mkCounts 0 0 0) []
     = prepend (out (rescale_prop module_globals shipped empty_host
                                  "Pen.glb" (3 # 25) []))
         (main_loop module_globals shipped empty_host [("Mousepad.glb", 3 # 10)]
                    (add_failed (mkCounts 0 0 0))
                    (scene_after (rescale_prop module_globals shipped empty_host
                                               "Pen.glb" (3 # 25) [])))
  /\ failed_count (add_failed (mkCounts 0 0 0)) = (failed_count (mkCounts 0 0 0) + 1)%Z.
Proof.
  assert (H1 : "Pen.glb" ∉ SKIP_PROPS shipped) by compute_done.
  assert (H2 : asset_failure module_globals shipped empty_host "Pen.glb" (3 # 25) [])
    by (apply missing_input; reflexivity).
  split; [exact H1|]. split; [exact H2|].
  exact (C1_asset_failure_is_counted_and_batch_continues
           module_globals shipped empty_host "Pen.glb" (3 # 25)
           [("Mousepad.glb", 3 # 10)] (mkCounts 0 0 0) [] H1 H2).
Defined.

(** The export failure is a live case once [Vector] resolves: the export
    operator is called, raises, and the call returns [False]. *)
Example export_failure_is_caught :
  asset_failure repaired_globals shipped read_only_host "Pen.glb" (3 # 25) []
  /\ res (rescale_prop repaired_globals shipped read_only_host "Pen.glb" (3 # 25) [])
     = Ok false.
Proof.
  split; [|reflexivity].
  apply (export_raises _ _ _ _ _ _ (RuntimeError "export failed")).
  - apply list_elem_of_In. vm_compute. auto 20.
  - reflexivity.
Qed.

(** As the script is written the export operator is never reached: a call
    that gets as far as the measurement raises. *)
Lemma shipped_never_exports (cfg : Config) (w : Host) (filename : string)
      (f : Q) (s : Scene) :
  OpExport (output_path cfg w filename)
    ∉ out (rescale_prop module_globals cfg w filename f s).
Proof.
  intros Hin. apply export_called in Hin.
  destruct Hin as (o & os & dx & dy & dz & _ & _ & Hdims).
  rewrite get_bounding_dimensions_shipped in Hdims. discriminate.
Qed.

(** C5: for an entry that is not skipped and whose input file does not
    exist, the call of [rescale_prop] calls neither the import nor the
    export operator (its log is the two messages it prints), and the loop
    of [main] adds one to the failed counter for it. *)
Theorem C5_missing_input_counts_failed_without_import_or_export
        (g : scope) (cfg : Config) (w : Host) (filename : string) (f : Q)
        (rest : list (string * Q)) (c : Counts) (s : Scene) :
  filename ∉ SKIP_PROPS cfg ->
  os_path_exists w (input_path cfg w filename) = false ->
  Forall (fun e => is_import_or_export e = false)
         (out (rescale_prop g cfg w filename f s))
  /\ main_loop g cfg w ((filename, f) :: rest) c s
     = prepend [Print (MsgProcessing filename f);
                Print (MsgNotFound (input_path cfg w filename))]
               (main_loop g cfg w rest (add_failed c) s)
  /\ failed_count (add_failed c) = (failed_count c + 1)%Z.
Proof.
  intros Hskip Hex. unfold input_path in *.
  pose proof (Hrun := rescale_prop_missing g cfg w filename f s Hex).
  split; [|split; [|reflexivity]].
  - rewrite Hrun. cbn [out]. repeat constructor.
  - rewrite main_loop_failed by (exact Hskip || by rewrite Hrun).
    by rewrite Hrun.
Qed.

Lemma C5_witness :
  ("Pen.glb" ∉ SKIP_PROPS shipped)
  /\ os_path_exists empty_host (input_path shipped empty_host "Pen.glb") = false
  /\ Forall (fun e => is_import_or_export e = false)
            (out (rescale_prop module_globals shipped empty_host "Pen.glb" (3 # 25) []))
  /\ main_loop module_globals shipped empty_host [("Pen.glb", 3 # 25)] (mkCounts 0 0 0) []
     = prepend [Print (MsgProcessing "Pen.glb" (3 # 25));
                Print (MsgNotFound (input_path shipped empty_host "Pen.glb"))]
               (main_loop module_globals shipped empty_host []
                          (add_failed (mkCounts 0 0 0)) [])
  /\ failed_count (add_failed (mkCounts 0 0 0)) = (failed_count (mkCounts 0 0 0) + 1)%Z.
Proof.
  assert (H1 : "Pen.glb" ∉ SKIP_PROPS shipped) by compute_done.
  assert (H2 : os_path_exists empty_host (input_path shipped empty_host "Pen.glb")
               = false) by reflexivity.
  split; [exact H1|]. split; [exact H2|].
  exact (C5_missing_input_counts_failed_without_import_or_export
           module_globals shipped empty_host "Pen.glb" (3 # 25) []
           (mkCounts 0 0 0) [] H1 H2).
Defined.

(** C10: when the import succeeds but the scene holds no object, the call
    of [rescale_prop] returns [False], its log has neither a scale
    assignment, nor the transform-apply operator, nor the export operator,
    and the loop of [main] counts the entry as failed. *)
Theorem C10_empty_import_fails_without_rescale_or_export
        (g : scope) (cfg : Config) (w : Host) (filename : string) (f : Q)
        (rest : list (string * Q)) (c : Counts) (s : Scene) :
  filename ∉ SKIP_PROPS cfg ->
  os_path_exists w (input_path cfg w filename) = true ->
  import_scene_gltf w (input_path cfg w filename) = Ok [] ->
  res (rescale_prop g cfg w filename f s) = Ok false
  /\ scene_after (rescale_prop g cfg w filename f s) = []
  /\ Forall (fun e => is_rescale_or_export e = false)
            (out (rescale_prop g cfg w filename f s))
  /\ main_loop g cfg w ((filename, f) :: rest) c s
     = prepend (out (rescale_prop g cfg w filename f s))
               (main_loop g cfg w rest (add_failed c) []).
Proof.
  intros Hskip Hex Himp. unfold input_path in *.
  pose proof (Hrun := rescale_prop_no_objects g cfg w filename f s Hex Himp).
  rewrite main_loop_failed by (exact Hskip || by rewrite Hrun).
  rewrite Hrun. cbn [res scene_after out app].
  repeat split. repeat constructor.
Qed.

Lemma C10_witness :
  ("Pen.glb" ∉ SKIP_PROPS shipped)
  /\ os_path_exists odd_host (input_path shipped odd_host "Pen.glb") = true
  /\ import_scene_gltf odd_host (input_path shipped odd_host "Pen.glb") = Ok []
  /\ res (rescale_prop module_globals shipped odd_host "Pen.glb" (3 # 25) [unit_cube])
     = Ok false
  /\ scene_after (rescale_prop module_globals shipped odd_host "Pen.glb" (3 # 25)
                               [unit_cube]) = []
  /\ Forall (fun e => is_rescale_or_export e = false)
            (out (rescale_prop module_globals shipped odd_host "Pen.glb" (3 # 25)
                               [unit_cube]))
  /\ main_loop module_globals shipped odd_host [("Pen.glb", 3 # 25)]
               (mkCounts 0 0 0) [unit_cube]
     = prepend (out (rescale_prop module_globals shipped odd_host "Pen.glb" (3 # 25)
                                  [unit_cube]))
               (main_loop module_globals shipped odd_host []
                          (add_failed (mkCounts 0 0 0)) []).
Proof.
  assert (H1 : "Pen.glb" ∉ SKIP_PROPS shipped) by compute_done.
  assert (H2 : os_path_exists odd_host (input_path shipped odd_host "Pen.glb") = true)
    by reflexivity.
  assert (H3 : import_scene_gltf odd_host (input_path shipped odd_host "Pen.glb")
               = Ok []) by reflexivity.
  split; [exact H1|]. split; [exact H2|]. split; [exact H3|].
  exact (C10_empty_import_fails_without_rescale_or_export
           module_globals shipped odd_host "Pen.glb" (3 # 25) []
           (mkCounts 0 0 0) [unit_cube] H1 H2 H3).
Defined.

(** ** Runs of [main] *)

Lemma makedirs_run (w : Host) (path : string) (s : Scene) :
  makedirs w path s
  = match os_makedirs w path with
    | None => mkOutcome (Ok tt) s [OpMakedirs path]
    | Some e => mkOutcome (Raise e) s [OpMakedirs path]
    end.
Proof.
  unfold makedirs. run_M. destruct (os_makedirs w path); reflexivity.
Qed.

(** A run of [main]: the header, the loop, and the five messages of the
    summary when the loop comes to its end. *)
Lemma main_run (g : scope) (cfg : Config) (w : Host) (s : Scene) :
  main g cfg w s
  = match os_makedirs w (OUTPUT_DIR cfg) with
    | Some e => mkOutcome (Raise e) s [OpMakedirs (OUTPUT_DIR cfg)]
    | None =>
        let header := [OpMakedirs (OUTPUT_DIR cfg);
                       Print (MsgHeader (INPUT_DIR cfg) (OUTPUT_DIR cfg)
                                        (length (SCALE_FACTORS cfg)))] in
        let r := main_loop g cfg w (SCALE_FACTORS cfg) (mkCounts 0 0 0) s in
        match res r with
        | Raise e => mkOutcome (Raise e) (scene_after r) (header ++ out r)
        | Ok c =>
            mkOutcome (Ok tt) (scene_after r)
              (header ++ out r
               ++ [Print MsgComplete;
                   Print (MsgSuccess (success_count c));
                   Print (MsgFailed (failed_count c));
                   Print (MsgSkipped (skipped_count c));
                   Print MsgNextSteps])
        end
    end.
Proof.
  unfold main. rewrite run_bind, makedirs_run.
  destruct (os_makedirs w (OUTPUT_DIR cfg)) as [e|]; [reflexivity|].
  cbv zeta.
  rewrite and_then_ok, run_bind, print_run, and_then_ok, run_bind.
  destruct (main_loop g cfg w (SCALE_FACTORS cfg) (mkCounts 0 0 0) s)
    as [[c|e] s' l]; reflexivity.
Qed.

(** C9: when a run of [main] completes, the log ends with the summary, and
    the three counters it prints are non-negative and add up to the number
    of entries of [SCALE_FACTORS]. *)
Theorem C9_counters_partition_the_configuration
        (g : scope) (cfg : Config) (w : Host) (s : Scene) :
  res (main g cfg w s) = Ok tt ->
  exists (log : list event) (succeeded failed skipped : Z),
    out (main g cfg w s)
    = log ++ [Print MsgComplete; Print (MsgSuccess succeeded);
              Print (MsgFailed failed); Print (MsgSkipped skipped);
              Print MsgNextSteps]
    /\ (succeeded + failed + skipped = Z.of_nat (length (SCALE_FACTORS cfg)))%Z
    /\ (0 <= succeeded)%Z /\ (0 <= failed)%Z /\ (0 <= skipped)%Z.
Proof.
  rewrite main_run.
  destruct (os_makedirs w (OUTPUT_DIR cfg)) as [e|]; [discriminate|].
  cbv zeta.
  destruct (res (main_loop g cfg w (SCALE_FACTORS cfg) (mkCounts 0 0 0) s))
    as [c|e] eqn:Hloop; [|discriminate].
  intros _. cbn [out].
  eexists _, (success_count c), (failed_count c), (skipped_count c).
  split; [by rewrite app_assoc|].
  apply main_loop_counts in Hloop. unfold total in Hloop. cbn in Hloop. lia.
Qed.

Lemma C9_witness :
  res (main module_globals shipped empty_host []) = Ok tt
  /\ exists (log : list event) (succeeded failed skipped : Z),
       out (main module_globals shipped empty_host [])
       = log ++ [Print MsgComplete; Print (MsgSuccess succeeded);
                 Print (MsgFailed failed); Print (MsgSkipped skipped);
                 Print MsgNextSteps]
       /\ (succeeded + failed + skipped
           = Z.of_nat (length (SCALE_FACTORS shipped)))%Z
       /\ (0 <= succeeded)%Z /\ (0 <= failed)%Z /\ (0 <= skipped)%Z.
Proof.
  assert (H : res (main module_globals shipped empty_host []) = Ok tt)
    by (vm_compute; reflexivity).
  split; [exact H|].
  exact (C9_counters_partition_the_configuration
           module_globals shipped empty_host [] H).
Defined.

(** ** Counting the calls of [rescale_prop] *)

Lemma processed_app (l1 l2 : list event) :
  processed (l1 ++ l2) = processed l1 + processed l2.
Proof. unfold processed. by rewrite filter_app, length_app. Qed.

Lemma processed_scale_events (f : Q) (objects : list ref) :
  processed (scale_events f objects) = 0.
Proof. induction objects as [|r rs IH]; [reflexivity | exact IH]. Qed.

(** Every call of [rescale_prop] prints its "Processing:" message once,
    however it ends. *)
Lemma rescale_prop_processed (g : scope) (cfg : Config) (w : Host)
      (filename : string) (f : Q) (s : Scene) :
  processed (out (rescale_prop g cfg w filename f s)) = 1.
Proof.
  destruct (os_path_exists w (os_path_join w (INPUT_DIR cfg) filename)) eqn:Hex.
  - destruct (import_scene_gltf w (os_path_join w (INPUT_DIR cfg) filename))
      as [[|o os]|e] eqn:Himp.
    + by rewrite (rescale_prop_no_objects g cfg w filename f s Hex Himp).
    + rewrite (rescale_prop_imported g cfg w filename f s o os Hex Himp).
      cbv zeta.
      destruct (get_bounding_dimensions g (rescaled f o)) as [[[dx dy] dz]|e];
        [destruct (export_scene_gltf w _ _)|]; cbn [out];
        rewrite !processed_app, processed_scale_events; reflexivity.
    + by rewrite (rescale_prop_import_raises g cfg w filename f s e Hex Himp).
  - by rewrite (rescale_prop_missing g cfg w filename f s Hex).
Qed.

(** A loop that runs to its end calls [rescale_prop] once for every entry
    that is not in the skip list, and adds the number of the others to the
    skipped counter. *)
Lemma main_loop_processed (g : scope) (cfg : Config) (w : Host)
      (entries : list (string * Q)) :
  forall (c c' : Counts) (s : Scene),
    res (main_loop g cfg w entries c s) = Ok c' ->
    processed (out (main_loop g cfg w entries c s))
    = length entries - length (filter (fun e => in_skip_list cfg e = true) entries)
    /\ skipped_count c'
       = (skipped_count c
          + Z.of_nat (length (filter (fun e => in_skip_list cfg e = true) entries)))%Z.
Proof.
  induction entries as [|[filename f] rest IH]; intros c c' s Hres.
  - cbn in Hres. injection Hres as <-. cbn. split; [reflexivity | lia].
  - pose proof (Hle := length_filter (fun e => in_skip_list cfg e = true) rest).
    destruct (decide (filename ∈ SKIP_PROPS cfg)) as [Hin|Hout].
    + rewrite filter_cons_True
        by (unfold in_skip_list; by apply bool_decide_eq_true_2).
      rewrite main_loop_skip in Hres |- * by exact Hin.
      apply IH in Hres. destruct Hres as [Hp Hk].
      unfold prepend. cbn [out res length].
      rewrite processed_app, Hp, Hk. cbn [skipped_count add_skipped].
      split; [reflexivity | lia].
    + rewrite filter_cons_False
        by (unfold in_skip_list; rewrite bool_decide_eq_false_2 by exact Hout;
            discriminate).
      rewrite main_loop_step in Hres |- * by exact Hout.
      pose proof (H1 := rescale_prop_processed g cfg w filename f s).
      destruct (rescale_prop g cfg w filename f s) as [[[|]|e] s' l];
        rewrite ?and_then_ok in Hres |- *; try discriminate Hres;
        apply IH in Hres; destruct Hres as [Hp Hk];
        unfold prepend; cbn [out res length] in *;
        rewrite processed_app, Hp, H1, Hk; cbn; split; lia.
Qed.

(** Runs that complete, whatever the module binds: [rescale_prop] is
    called for the N - M entries that are not skipped and the summary
    prints M as the skipped counter. *)
Lemma completed_run_processes_every_entry
      (g : scope) (cfg : Config) (w : Host) (s : Scene) :
  res (main g cfg w s) = Ok tt ->
  processed (out (main g cfg w s))
  = length (SCALE_FACTORS cfg) - skipped_entries cfg
  /\ Print (MsgSkipped (Z.of_nat (skipped_entries cfg))) ∈ out (main g cfg w s).
Proof.
  rewrite main_run.
  destruct (os_makedirs w (OUTPUT_DIR cfg)) as [e|]; [discriminate|].
  cbv zeta.
  destruct (res (main_loop g cfg w (SCALE_FACTORS cfg) (mkCounts 0 0 0) s))
    as [c|e] eqn:Hloop; [|discriminate].
  intros _. cbn [out]. apply main_loop_processed in Hloop.
  destruct Hloop as [Hp Hk]. cbn [skipped_count] in Hk.
  fold (skipped_entries cfg) in Hp, Hk. split.
  - rewrite !processed_app, Hp.
    change (processed [OpMakedirs _; _]) with 0.
    change (processed [_; _; _; _; _]) with 0. lia.
  - rewrite Hk, Z.add_0_l, !elem_of_app, !elem_of_cons. auto 10.
Qed.

(** C4 at the shipped configuration, with the first configured file in
    place: the run ends with [NameError] inside the first call of
    [rescale_prop]; that is one call where N - M = 12 (N = 12, M = 0), and
    no summary is printed. *)
Theorem C4_shipped_run_stops_at_first_imported_asset :
  res (main module_globals shipped mouse_host []) = Raise (NameError "Vector")
  /\ processed (out (main module_globals shipped mouse_host [])) = 1
  /\ length (SCALE_FACTORS shipped) - skipped_entries shipped = 12
  /\ Forall (fun e => match e with Print (MsgSkipped _) => False | _ => True end)
            (out (main module_globals shipped mouse_host [])).
Proof.
  split; [vm_compute; reflexivity|].
  split; [vm_compute; reflexivity|].
  split; [vm_compute; reflexivity|].
  vm_compute. repeat constructor.
Qed.

(** With [Vector] bound at module level the same run completes, calls
    [rescale_prop] twelve times and prints 0 as the skipped counter. *)
Example repaired_run_processes_every_entry :
  res (main repaired_globals shipped mouse_host []) = Ok tt
  /\ processed (out (main repaired_globals shipped mouse_host [])) = 12
  /\ Print (MsgSkipped 0) ∈ out (main repaired_globals shipped mouse_host []).
Proof.
  assert (H : res (main repaired_globals shipped mouse_host []) = Ok tt)
    by (vm_compute; reflexivity).
  split; [exact H|].
  apply completed_run_processes_every_entry in H. exact H.
Qed.

(** ** The measurement *)

(** C8: [Vector] is a local name of [main] and is bound neither at module
    level nor in the builtins; so every call of
    [get_bounding_dimensions] raises [NameError], and so does every call
    of [rescale_prop] whose import succeeds with at least one object. *)
Theorem C8_every_measurement_raises_NameError :
  bound_in "Vector" main_locals = true
  /\ bound_in "Vector" module_globals = false
  /\ bound_in "Vector" builtins = false
  /\ (forall obj : Object,
        get_bounding_dimensions module_globals obj = Raise (NameError "Vector"))
  /\ (forall (cfg : Config) (w : Host) (filename : string) (f : Q) (s : Scene)
             (objs : list Object),
        os_path_exists w (input_path cfg w filename) = true ->
        import_scene_gltf w (input_path cfg w filename) = Ok objs ->
        objs <> [] ->
        res (rescale_prop module_globals cfg w filename f s)
        = Raise (NameError "Vector")).
Proof.
  repeat split; try reflexivity.
  - exact get_bounding_dimensions_shipped.
  - intros cfg w filename f s [|o os] Hex Himp Hne; [done|].
    unfold input_path in *.
    rewrite (rescale_prop_imported _ cfg w filename f s o os Hex Himp).
    cbv zeta. by rewrite get_bounding_dimensions_shipped.
Qed.

Lemma C8_witness :
  os_path_exists mouse_host (input_path shipped mouse_host "Computer-Mouse.glb") = true
  /\ import_scene_gltf mouse_host (input_path shipped mouse_host "Computer-Mouse.glb")
     = Ok [unit_cube]
  /\ [unit_cube] <> []
  /\ res (rescale_prop module_globals shipped mouse_host "Computer-Mouse.glb" (1 # 10) [])
     = Raise (NameError "Vector").
Proof.
  assert (H1 : os_path_exists mouse_host
                 (input_path shipped mouse_host "Computer-Mouse.glb") = true)
    by reflexivity.
  assert (H2 : import_scene_gltf mouse_host
                 (input_path shipped mouse_host "Computer-Mouse.glb")
               = Ok [unit_cube]) by reflexivity.
  assert (H3 : [unit_cube] <> []) by discriminate.
  split; [exact H1|]. split; [exact H2|]. split; [exact H3|].
  exact (proj2 (proj2 (proj2 (proj2 C8_every_measurement_raises_NameError)))
           shipped mouse_host "Computer-Mouse.glb" (1 # 10) [] [unit_cube]
           H1 H2 H3).
Defined.

(** C2 at the unit cube with the identity world transform: the call does
    not return the extents, it raises [NameError]. *)
Theorem C2_measuring_the_unit_cube_raises :
  bound_box unit_cube = cube_corners half
  /\ matrix_world unit_cube = identity
  /\ get_bounding_dimensions module_globals unit_cube = Raise (NameError "Vector").
Proof. repeat split. Qed.

(** ** What the measurement computes once [Vector] resolves *)

Lemma fold_Qmax_spec (l : list Q) :
  forall x : Q, is_max (fold_left Qmax l x) (x :: l).
Proof.
  induction l as [|a l IH]; intros x; cbn [fold_left].
  - split; [apply list_elem_of_here|].
    intros y Hy. apply list_elem_of_singleton in Hy. subst. apply Qle_refl.
  - destruct (IH (Qmax x a)) as [Hin Hub]. split.
    + apply elem_of_cons in Hin. destruct Hin as [Heq|Hin].
      * rewrite Heq. unfold Qmax, GenericMinMax.gmax.
        destruct (x ?= a)%Q; rewrite !elem_of_cons; auto.
      * rewrite !elem_of_cons. auto.
    + intros y Hy. rewrite !elem_of_cons in Hy.
      destruct Hy as [->|[->|Hy]].
      * eapply Qle_trans; [apply Q.le_max_l|]. apply Hub, list_elem_of_here.
      * eapply Qle_trans; [apply Q.le_max_r|]. apply Hub, list_elem_of_here.
      * apply Hub. rewrite elem_of_cons. auto.
Qed.

Lemma fold_Qmin_spec (l : list Q) :
  forall x : Q, is_min (fold_left Qmin l x) (x :: l).
Proof.
  induction l as [|a l IH]; intros x; cbn [fold_left].
  - split; [apply list_elem_of_here|].
    intros y Hy. apply list_elem_of_singleton in Hy. subst. apply Qle_refl.
  - destruct (IH (Qmin x a)) as [Hin Hlb]. split.
    + apply elem_of_cons in Hin. destruct Hin as [Heq|Hin].
      * rewrite Heq. unfold Qmin, GenericMinMax.gmin.
        destruct (x ?= a)%Q; rewrite !elem_of_cons; auto.
      * rewrite !elem_of_cons. auto.
    + intros y Hy. rewrite !elem_of_cons in Hy.
      destruct Hy as [->|[->|Hy]].
      * eapply Qle_trans; [|apply Q.le_min_l]. apply Hlb, list_elem_of_here.
      * eapply Qle_trans; [|apply Q.le_min_r]. apply Hlb, list_elem_of_here.
      * apply Hlb. rewrite elem_of_cons. auto.
Qed.

Lemma py_max_spec (l : list Q) (m : Q) : py_max l = Ok m -> is_max m l.
Proof.
  destruct l as [|x l]; [discriminate|].
  intros [= <-]. apply fold_Qmax_spec.
Qed.

Lemma py_min_spec (l : list Q) (m : Q) : py_min l = Ok m -> is_min m l.
Proof.
  destruct l as [|x l]; [discriminate|].
  intros [= <-]. apply fold_Qmin_spec.
Qed.

(** [max] and [min] are builtins: they resolve whatever the module binds. *)
Lemma load_builtin (locals : list (list string)) (g : scope) (x : string) :
  bound_in x builtins = true -> load_name locals g x = Ok tt.
Proof.
  intros H. unfold load_name. rewrite H.
  destruct (existsb _ _); [reflexivity|]. by destruct (bound_in x g).
Qed.

(** In a module where [Vector] resolves, [get_bounding_dimensions] returns,
    on each axis, the greatest minus the least coordinate of the eight
    corners in world space. *)
Lemma get_bounding_dimensions_resolved (g : scope) (obj : Object) :
  load_name [worldify_locals; get_bounding_dimensions_locals] g "Vector" = Ok tt ->
  exists x_max x_min y_max y_min z_max z_min : Q,
    get_bounding_dimensions g obj
    = Ok ((x_max - x_min)%Q, (y_max - y_min)%Q, (z_max - z_min)%Q)
    /\ is_max x_max (map vx (world_corners obj))
    /\ is_min x_min (map vx (world_corners obj))
    /\ is_max y_max (map vy (world_corners obj))
    /\ is_min y_min (map vy (world_corners obj))
    /\ is_max z_max (map vz (world_corners obj))
    /\ is_min z_min (map vz (world_corners obj)).
Proof.
  intros H. unfold get_bounding_dimensions, world_corners.
  destruct (bound_box obj) as [c0 c1 c2 c3 c4 c5 c6 c7].
  cbn [corners list_comprehension map]. unfold worldify. rewrite H.
  rewrite !load_builtin by reflexivity.
  unfold mbind, result_bind. cbn [map py_max py_min].
  do 6 eexists. split; [reflexivity|].
  repeat split; first [apply fold_Qmax_spec | apply fold_Qmin_spec].
Qed.

(** A list whose elements take two values [lo <= hi], both of them
    present, has the extent [hi - lo]. *)
Lemma extent_of_two_values (l : list Q) (lo hi m n : Q) :
  is_max m l -> is_min n l -> (lo <= hi)%Q ->
  (forall x, x ∈ l -> (x == lo \/ x == hi)%Q) ->
  (exists x, x ∈ l /\ (x == lo)%Q) ->
  (exists x, x ∈ l /\ (x == hi)%Q) ->
  (m - n == hi - lo)%Q.
Proof.
  intros [Hm Hub] [Hn Hlb] Hle Hval (a & Ha & Halo) (b & Hb & Hbhi).
  pose proof (Hub b Hb). pose proof (Hlb a Ha).
  destruct (Hval m Hm), (Hval n Hn); lra.
Qed.

(** Decides a membership in an explicit list of numbers that take the two
    values [lo] and [hi]. *)
Ltac two_values :=
  let x := fresh "x" in
  let Hx := fresh "Hx" in
  intros x Hx;
  repeat (apply elem_of_cons in Hx; destruct Hx as [->|Hx]);
  try (apply elem_of_nil in Hx; contradiction);
  first [left; unfold half; lra | right; unfold half; lra].

(** In a module where [Vector] resolves, the unit cube rescaled by a
    positive factor [f] measures [f] on every axis. *)
Lemma unit_cube_rescaled_dimensions (f : Q) :
  (0 < f)%Q ->
  exists dx dy dz : Q,
    get_bounding_dimensions repaired_globals (rescaled f unit_cube)
    = Ok (dx, dy, dz)
    /\ (dx == f)%Q /\ (dy == f)%Q /\ (dz == f)%Q.
Proof.
  intros Hf.
  destruct (get_bounding_dimensions_resolved repaired_globals
              (rescaled f unit_cube) vector_bound_when_repaired)
    as (x_max & x_min & y_max & y_min & z_max & z_min
        & Heq & Hx & Hx' & Hy & Hy' & Hz & Hz').
  do 3 eexists. split; [exact Heq|].
  assert (Hspan : (f * half - - (f * half) == f)%Q) by (unfold half; lra).
  assert (Hle : (- (f * half) <= f * half)%Q) by (unfold half; lra).
  cbv [world_corners rescaled bake_scale evaluate set_selected set_scale
       unit_cube cube_corners bbox_map corners bound_box matrix_world
       placement scale uniform identity mat_scale row_scale mat_vec row_dot
       vmul vx vy vz fst snd map] in Hx, Hx', Hy, Hy', Hz, Hz'.
  repeat split; rewrite <- Hspan;
    (eapply extent_of_two_values;
     [eassumption | eassumption | exact Hle | two_values
     | eexists; split; [apply list_elem_of_here | unfold half; lra]
     | eexists; split;
       [do 6 apply list_elem_of_further; apply list_elem_of_here
       | unfold half; lra]]).
Qed.

(** C3 on the script as written: a file that holds the unit cube, rescaled
    by any factor [f]; the call raises [NameError] after the scale was
    applied and reports no dimensions. *)
Theorem C3_rescaled_unit_cube_is_not_measured (f : Q) :
  res (rescale_prop module_globals shipped mouse_host "Computer-Mouse.glb" f [])
  = Raise (NameError "Vector")
  /\ scene_after (rescale_prop module_globals shipped mouse_host
                               "Computer-Mouse.glb" f [])
     = [rescaled f unit_cube]
  /\ Forall (fun e => is_dimensions e = false)
            (out (rescale_prop module_globals shipped mouse_host
                               "Computer-Mouse.glb" f [])).
Proof.
  rewrite (rescale_prop_imported module_globals shipped mouse_host
             "Computer-Mouse.glb" f [] unit_cube [] eq_refl eq_refl).
  cbv zeta. rewrite get_bounding_dimensions_shipped.
  repeat split. cbn. repeat constructor.
Qed.

(** ** Which object is measured *)

Lemma scale_events_no_print (f : Q) (objects : list ref) (m : message) :
  Print m ∉ scale_events f objects.
Proof.
  induction objects as [|r rs IH]; cbn.
  - apply not_elem_of_nil.
  - rewrite !not_elem_of_cons. repeat split; [discriminate..|exact IH].
Qed.

(** Whatever the module binds, the dimensions that a call prints are those
    of the first imported object after the rescale, and the other objects
    have no part in them. *)
Lemma printed_dimensions_are_those_of_the_first_object
      (g : scope) (cfg : Config) (w : Host) (filename : string) (f : Q)
      (s : Scene) (o : Object) (os : list Object) (dx dy dz : Q) :
  os_path_exists w (input_path cfg w filename) = true ->
  import_scene_gltf w (input_path cfg w filename) = Ok (o :: os) ->
  Print (MsgNewDimensions dx dy dz) ∈ out (rescale_prop g cfg w filename f s)
  <-> get_bounding_dimensions g (rescaled f o) = Ok (dx, dy, dz).
Proof.
  unfold input_path. intros Hex Himp.
  rewrite (rescale_prop_imported g cfg w filename f s o os Hex Himp).
  cbv zeta.
  pose proof (Hloop := scale_events_no_print f (seq 0 (length (o :: os)))
                         (MsgNewDimensions dx dy dz)).
  destruct (get_bounding_dimensions g (rescaled f o)) as [[[dx' dy'] dz']|e];
    [destruct (export_scene_gltf w _ _)|]; cbn [out];
    rewrite !elem_of_app, !elem_of_cons, !elem_of_nil;
    split; intros H; try discriminate H.
  all: try (intuition congruence).
  all: injection H as -> -> ->; auto 20.
Qed.

(** C7 on the script as written: a file with two objects; the call raises
    [NameError] when it measures the first one and prints no dimensions,
    of one object or of several. *)
Theorem C7_two_part_asset_prints_no_measurement (f : Q) :
  res (rescale_prop module_globals shipped two_part_host "Pen.glb" f [])
  = Raise (NameError "Vector")
  /\ scene_after (rescale_prop module_globals shipped two_part_host "Pen.glb" f [])
     = [rescaled f unit_cube; rescaled f big_box]
  /\ Forall (fun e => is_dimensions e = false)
            (out (rescale_prop module_globals shipped two_part_host "Pen.glb" f [])).
Proof.
  rewrite (rescale_prop_imported module_globals shipped two_part_host
             "Pen.glb" f [] unit_cube [big_box] eq_refl eq_refl).
  cbv zeta. rewrite get_bounding_dimensions_shipped.
  repeat split. cbn. repeat constructor.
Qed.

(** With [Vector] bound at module level the same call prints the
    dimensions of the first object, the rescaled unit cube, and returns
    [True]. *)
Example repaired_two_part_asset_measures_first_object :
  res (rescale_prop repaired_globals shipped two_part_host "Pen.glb" 2 []) = Ok true
  /\ get_bounding_dimensions repaired_globals (rescaled 2 unit_cube)
     = Ok (128 # 64, 128 # 64, 128 # 64)%Q
  /\ Print (MsgNewDimensions (128 # 64) (128 # 64) (128 # 64))
     ∈ out (rescale_prop repaired_globals shipped two_part_host "Pen.glb" 2 []).
Proof.
  split; [vm_compute; reflexivity|].
  assert (H : get_bounding_dimensions repaired_globals (rescaled 2 unit_cube)
              = Ok (128 # 64, 128 # 64, 128 # 64)%Q) by (vm_compute; reflexivity).
  split; [exact H|].
  by apply (printed_dimensions_are_those_of_the_first_object
              repaired_globals shipped two_part_host "Pen.glb" 2 []
              unit_cube [big_box]).
Qed.


(** * Further properties of the script *)

(** ** The six ways a call of [rescale_prop] ends *)

Lemma call_shape_eq (g : scope) (cfg : Config) (w : Host) (filename : string)
      (f : Q) (s : Scene) (r r' : Outcome bool) :
  call_shape g cfg w filename f s r -> r = r' ->
  call_shape g cfg w filename f s r'.
Proof. by intros H <-. Qed.

Lemma rescale_prop_shape (g : scope) (cfg : Config) (w : Host)
      (filename : string) (f : Q) (s : Scene) :
  call_shape g cfg w filename f s (rescale_prop g cfg w filename f s).
Proof.
  destruct (os_path_exists w (input_path cfg w filename)) eqn:Hex.
  - destruct (import_scene_gltf w (input_path cfg w filename))
      as [[|o os]|e] eqn:Himp.
    + rewrite (rescale_prop_no_objects g cfg w filename f s Hex Himp).
      by apply shape_no_objects.
    + rewrite (rescale_prop_imported g cfg w filename f s o os Hex Himp).
      cbv zeta.
      destruct (get_bounding_dimensions g (rescaled f o))
        as [[[dx dy] dz]|e] eqn:Hdims.
      * destruct (export_scene_gltf w (os_path_join w (OUTPUT_DIR cfg) filename)
                    (map (rescaled f) (o :: os))) as [e|] eqn:Hexp.
        -- eapply call_shape_eq; [by eapply shape_export_failed|].
           f_equal. cbn [app]. rewrite <- ?app_assoc. reflexivity.
        -- eapply call_shape_eq; [by eapply shape_exported|].
           f_equal. cbn [app]. rewrite <- ?app_assoc. reflexivity.
      * by apply shape_measure_raised.
    + rewrite (rescale_prop_import_raises g cfg w filename f s e Hex Himp).
      by apply shape_import_failed.
  - rewrite (rescale_prop_missing g cfg w filename f s Hex).
    by apply shape_missing.
Qed.

(** ** Counting in logs *)

Lemma tally_app (p : event -> bool) (l1 l2 : list event) :
  tally p (l1 ++ l2) = tally p l1 + tally p l2.
Proof. unfold tally. by rewrite List.filter_app, length_app. Qed.

Lemma tally_zero (p : event -> bool) (l : list event) :
  Forall (fun e => p e = false) l -> tally p l = 0.
Proof.
  unfold tally. induction 1 as [|e l He _ IH]; [reflexivity|].
  cbn. by rewrite He.
Qed.

Lemma tally_scale_events (p : event -> bool) (f : Q) (objects : list ref) :
  (forall r v, p (OpSetScale r v) = false) ->
  p OpViewLayerUpdate = false ->
  tally p (scale_events f objects) = 0.
Proof.
  intros H1 H2. apply tally_zero.
  induction objects as [|r rs IH]; cbn; repeat constructor; auto.
Qed.

(** Solves [tally p log = n] for a classifier of messages and the log of
    one call. *)
Ltac tally_call :=
  cbn [out]; rewrite ?tally_app, ?tally_scale_events by reflexivity; reflexivity.

(** ** The scene between assets *)

(** X3: when the input file is missing, [rescale_prop] returns before it
    clears the scene: it calls no host operator at all and the scene still
    holds what the call found there. *)
Theorem X3_missing_input_leaves_scene_untouched
        (g : scope) (cfg : Config) (w : Host) (filename : string) (f : Q)
        (s : Scene) :
  os_path_exists w (input_path cfg w filename) = false ->
  scene_after (rescale_prop g cfg w filename f s) = s
  /\ tally is_operator (out (rescale_prop g cfg w filename f s)) = 0.
Proof.
  unfold input_path. intros Hex.
  by rewrite (rescale_prop_missing g cfg w filename f s Hex).
Qed.

Lemma X3_witness :
  os_path_exists empty_host (input_path shipped empty_host "Pen.glb") = false
  /\ scene_after (rescale_prop module_globals shipped empty_host "Pen.glb"
                               (3 # 25) [unit_cube; big_box])
     = [unit_cube; big_box]
  /\ tally is_operator
           (out (rescale_prop module_globals shipped empty_host "Pen.glb"
                              (3 # 25) [unit_cube; big_box])) = 0.
Proof.
  assert (H : os_path_exists empty_host (input_path shipped empty_host "Pen.glb")
              = false) by reflexivity.
  split; [exact H|].
  exact (X3_missing_input_leaves_scene_untouched
           module_globals shipped empty_host "Pen.glb" (3 # 25)
           [unit_cube; big_box] H).
Defined.

(** ** Which exceptions escape *)

Lemma load_name_cases (locals : list (list string)) (g : scope) (x : string) :
  load_name locals g x = Ok tt \/ load_name locals g x = Raise (NameError x).
Proof.
  unfold load_name.
  destruct (existsb _ _), (bound_in x g), (bound_in x builtins); auto.
Qed.

Lemma get_bounding_dimensions_raise (g : scope) (obj : Object) (e : exn) :
  get_bounding_dimensions g obj = Raise e ->
  e = NameError "Vector" /\ ~ vector_resolves g.
Proof.
  intros Hraise. unfold vector_resolves.
  destruct (load_name_cases [worldify_locals; get_bounding_dimensions_locals]
              g "Vector") as [Hok|Hno].
  - destruct (get_bounding_dimensions_resolved g obj Hok)
      as (? & ? & ? & ? & ? & ? & Heq & _).
    congruence.
  - rewrite (get_bounding_dimensions_unbound g obj Hno) in Hraise.
    split; congruence.
Qed.

(** X5: the only exception [get_bounding_dimensions] raises is the
    [NameError] for [Vector], and it raises it only when [Vector] does
    not resolve; [max] and [min] never see an empty list, since a bounding
    box has eight corners. *)
Theorem X5_measurement_raises_only_NameError (g : scope) (obj : Object) (e : exn) :
  get_bounding_dimensions g obj = Raise e ->
  e = NameError "Vector" /\ ~ vector_resolves g.
Proof. apply get_bounding_dimensions_raise. Qed.

Lemma X5_witness :
  get_bounding_dimensions module_globals big_box = Raise (NameError "Vector")
  /\ NameError "Vector" = NameError "Vector" /\ ~ vector_resolves module_globals.
Proof.
  assert (H : get_bounding_dimensions module_globals big_box
              = Raise (NameError "Vector")) by reflexivity.
  split; [exact H|].
  exact (X5_measurement_raises_only_NameError module_globals big_box _ H).
Defined.

Lemma rescale_prop_no_summary (g : scope) (cfg : Config) (w : Host)
      (filename : string) (f : Q) (s : Scene) :
  tally is_summary (out (rescale_prop g cfg w filename f s)) = 0.
Proof. destruct (rescale_prop_shape g cfg w filename f s); tally_call. Qed.

Lemma res_prepend {A : Type} (l : list event) (o : Outcome A) :
  res (prepend l o) = res o.
Proof. reflexivity. Qed.

Lemma out_prepend {A : Type} (l : list event) (o : Outcome A) :
  out (prepend l o) = l ++ out o.
Proof. reflexivity. Qed.

(** The loop prints no line of the summary, however it ends. *)
Lemma main_loop_no_summary (g : scope) (cfg : Config) (w : Host)
      (entries : list (string * Q)) :
  forall (c : Counts) (s : Scene),
    tally is_summary (out (main_loop g cfg w entries c s)) = 0.
Proof.
  induction entries as [|[filename f] rest IH]; intros c s.
  - reflexivity.
  - destruct (decide (filename ∈ SKIP_PROPS cfg)) as [Hin|Hout].
    + rewrite main_loop_skip by exact Hin.
      by rewrite out_prepend, tally_app, IH.
    + rewrite main_loop_step by exact Hout.
      pose proof (Hs := rescale_prop_no_summary g cfg w filename f s).
      destruct (rescale_prop g cfg w filename f s) as [[[|]|e'] s' l];
        cbn [out] in Hs.
      * by rewrite and_then_ok, out_prepend, tally_app, Hs, IH.
      * by rewrite and_then_ok, out_prepend, tally_app, Hs, IH.
      * exact Hs.
Qed.

(** X7: when [main] ends with an exception, no line of the summary
    ("BATCH RESCALE COMPLETE", the three counters, the next steps) was
    printed. *)
Theorem X7_aborted_run_prints_no_summary
        (g : scope) (cfg : Config) (w : Host) (s : Scene) (e : exn) :
  res (main g cfg w s) = Raise e ->
  tally is_summary (out (main g cfg w s)) = 0.
Proof.
  rewrite main_run.
  destruct (os_makedirs w (OUTPUT_DIR cfg)) as [e'|]; [reflexivity|].
  cbv zeta.
  pose proof (H0 := main_loop_no_summary g cfg w (SCALE_FACTORS cfg)
                      (mkCounts 0 0 0) s).
  destruct (res (main_loop g cfg w (SCALE_FACTORS cfg) (mkCounts 0 0 0) s))
    as [c|e'] eqn:Hloop; [discriminate|].
  intros _. cbn [out]. by rewrite tally_app, H0.
Qed.

Lemma X7_witness :
  res (main module_globals shipped mouse_host []) = Raise (NameError "Vector")
  /\ tally is_summary (out (main module_globals shipped mouse_host [])) = 0.
Proof.
  assert (H : res (main module_globals shipped mouse_host [])
              = Raise (NameError "Vector")) by (vm_compute; reflexivity).
  split; [exact H|].
  exact (X7_aborted_run_prints_no_summary module_globals shipped mouse_host [] _ H).
Defined.

(** ** The counters and the log *)

(** What one call adds to the log, by its result: a call that returns
    [True] printed one "Exported:" line and no failure line; a call that
    returns [False] printed one failure line and no "Exported:" line. *)
Lemma rescale_prop_lines (g : scope) (cfg : Config) (w : Host)
      (filename : string) (f : Q) (s : Scene) :
  tally is_skipping (out (rescale_prop g cfg w filename f s)) = 0
  /\ (res (rescale_prop g cfg w filename f s) = Ok true ->
      tally is_exported (out (rescale_prop g cfg w filename f s)) = 1
      /\ tally is_failure (out (rescale_prop g cfg w filename f s)) = 0)
  /\ (res (rescale_prop g cfg w filename f s) = Ok false ->
      tally is_exported (out (rescale_prop g cfg w filename f s)) = 0
      /\ tally is_failure (out (rescale_prop g cfg w filename f s)) = 1).
Proof.
  destruct (rescale_prop_shape g cfg w filename f s);
    (split; [tally_call|]); cbn [res];
    split; intros Hres; try discriminate Hres; split; tally_call.
Qed.

Lemma main_loop_lines (g : scope) (cfg : Config) (w : Host)
      (entries : list (string * Q)) :
  forall (c c' : Counts) (s : Scene),
    res (main_loop g cfg w entries c s) = Ok c' ->
    let log := out (main_loop g cfg w entries c s) in
    (success_count c' = success_count c + Z.of_nat (tally is_exported log)
     /\ failed_count c' = failed_count c + Z.of_nat (tally is_failure log)
     /\ skipped_count c' = skipped_count c + Z.of_nat (tally is_skipping log))%Z.
Proof.
  induction entries as [|[filename f] rest IH]; intros c c' s Hres; cbv zeta.
  - cbn in Hres. injection Hres as <-. cbn. lia.
  - destruct (decide (filename ∈ SKIP_PROPS cfg)) as [Hin|Hout].
    + rewrite main_loop_skip in Hres |- * by exact Hin.
      rewrite res_prepend in Hres. apply IH in Hres. cbv zeta in Hres.
      rewrite out_prepend, !tally_app.
      change (tally is_exported [_]) with 0.
      change (tally is_failure [_]) with 0.
      change (tally is_skipping [_]) with 1.
      cbn [add_skipped success_count failed_count skipped_count] in Hres. lia.
    + rewrite main_loop_step in Hres |- * by exact Hout.
      destruct (rescale_prop_lines g cfg w filename f s) as (Hk & Ht & Hf).
      destruct (rescale_prop g cfg w filename f s) as [[[|]|e] s' l];
        cbn [res out] in Hk, Ht, Hf;
        rewrite ?and_then_ok in Hres |- *; try discriminate Hres;
        rewrite res_prepend in Hres; apply IH in Hres; cbv zeta in Hres;
        rewrite out_prepend, !tally_app, Hk.
      * destruct (Ht eq_refl) as [-> ->].
        cbn [add_success success_count failed_count skipped_count] in Hres. lia.
      * destruct (Hf eq_refl) as [-> ->].
        cbn [add_failed success_count failed_count skipped_count] in Hres. lia.
Qed.

Lemma completed_run_summary
      (g : scope) (cfg : Config) (w : Host) (s : Scene) :
  res (main g cfg w s) = Ok tt ->
  let log := out (main g cfg w s) in
  Print (MsgSuccess (Z.of_nat (tally is_exported log))) ∈ log
  /\ Print (MsgFailed (Z.of_nat (tally is_failure log))) ∈ log
  /\ Print (MsgSkipped (Z.of_nat (tally is_skipping log))) ∈ log.
Proof.
  rewrite main_run.
  destruct (os_makedirs w (OUTPUT_DIR cfg)) as [e|]; [discriminate|].
  cbv zeta.
  destruct (res (main_loop g cfg w (SCALE_FACTORS cfg) (mkCounts 0 0 0) s))
    as [c|e] eqn:Hloop; [|discriminate].
  intros _. cbn [out]. apply main_loop_lines in Hloop. cbv zeta in Hloop.
  cbn [success_count failed_count skipped_count] in Hloop.
  destruct Hloop as (Hs & Hf & Hk).
  rewrite !tally_app.
  change (tally is_exported [OpMakedirs _; _]) with 0.
  change (tally is_failure [OpMakedirs _; _]) with 0.
  change (tally is_skipping [OpMakedirs _; _]) with 0.
  change (tally is_exported [_; _; _; _; _]) with 0.
  change (tally is_failure [_; _; _; _; _]) with 0.
  change (tally is_skipping [_; _; _; _; _]) with 0.
  rewrite Z.add_0_l in Hs, Hf, Hk.
  rewrite !Nat.add_0_l, !Nat.add_0_r, <- Hs, <- Hf, <- Hk.
  rewrite !elem_of_app, !elem_of_cons. auto 20.
Qed.

(** X9: the summary of a completed run agrees with what the run printed:
    the success counter is the number of "Exported:" lines, the failed
    counter the number of failure lines ("File not found", "Failed to
    import", "No objects found", "Failed to export"), and the skipped
    counter the number of "Skipping" lines. *)
Theorem X9_summary_agrees_with_the_log
        (g : scope) (cfg : Config) (w : Host) (s : Scene) :
  res (main g cfg w s) = Ok tt ->
  let log := out (main g cfg w s) in
  Print (MsgSuccess (Z.of_nat (tally is_exported log))) ∈ log
  /\ Print (MsgFailed (Z.of_nat (tally is_failure log))) ∈ log
  /\ Print (MsgSkipped (Z.of_nat (tally is_skipping log))) ∈ log.
Proof. apply completed_run_summary. Qed.

Lemma X9_witness :
  res (main repaired_globals shipped read_only_host []) = Ok tt
  /\ let log := out (main repaired_globals shipped read_only_host []) in
     Print (MsgSuccess (Z.of_nat (tally is_exported log))) ∈ log
     /\ Print (MsgFailed (Z.of_nat (tally is_failure log))) ∈ log
     /\ Print (MsgSkipped (Z.of_nat (tally is_skipping log))) ∈ log.
Proof.
  assert (H : res (main repaired_globals shipped read_only_host []) = Ok tt)
    by (vm_compute; reflexivity).
  split; [exact H|].
  exact (X9_summary_agrees_with_the_log repaired_globals shipped read_only_host [] H).
Defined.

(** ** The script as written never exports *)

Lemma shipped_call_never_succeeds (cfg : Config) (w : Host)
      (filename : string) (f : Q) (s : Scene) :
  res (rescale_prop module_globals cfg w filename f s) <> Ok true
  /\ tally is_export (out (rescale_prop module_globals cfg w filename f s)) = 0
  /\ tally is_exported (out (rescale_prop module_globals cfg w filename f s)) = 0.
Proof.
  destruct (rescale_prop_shape module_globals cfg w filename f s)
    as [Hex|e Hex Himp|Hex Himp|o os e Hex Himp Hdims
        |o os dx dy dz Hex Himp Hdims Hexp|o os dx dy dz e Hex Himp Hdims Hexp];
    try (rewrite get_bounding_dimensions_shipped in Hdims; discriminate Hdims);
    (split; [discriminate|]); split; tally_call.
Qed.

Lemma shipped_loop_never_exports (cfg : Config) (w : Host)
      (entries : list (string * Q)) :
  forall (c : Counts) (s : Scene),
    tally is_export (out (main_loop module_globals cfg w entries c s)) = 0
    /\ tally is_exported (out (main_loop module_globals cfg w entries c s)) = 0.
Proof.
  induction entries as [|[filename f] rest IH]; intros c s.
  - split; reflexivity.
  - destruct (decide (filename ∈ SKIP_PROPS cfg)) as [Hin|Hout].
    + rewrite main_loop_skip by exact Hin.
      rewrite out_prepend, !tally_app.
      destruct (IH (add_skipped c) s) as [-> ->]. split; reflexivity.
    + rewrite main_loop_step by exact Hout.
      destruct (shipped_call_never_succeeds cfg w filename f s) as (Hne & H1 & H2).
      destruct (rescale_prop module_globals cfg w filename f s)
        as [[[|]|e'] s' l]; cbn [res out] in Hne, H1, H2; [done| |].
      * rewrite and_then_ok, out_prepend, !tally_app, H1, H2. apply IH.
      * unfold and_then. cbn [res out]. auto.
Qed.

(** X10: with the module as it is written ([Vector] imported inside
    [main]), no run of [main] ever calls the export operator or prints an
    "Exported:" line, whatever the configuration and the files; a run that
    completes reports [Success: 0]. *)
Theorem X10_script_as_written_never_exports
        (cfg : Config) (w : Host) (s : Scene) :
  tally is_export (out (main module_globals cfg w s)) = 0
  /\ tally is_exported (out (main module_globals cfg w s)) = 0
  /\ (res (main module_globals cfg w s) = Ok tt ->
      Print (MsgSuccess 0) ∈ out (main module_globals cfg w s)).
Proof.
  assert (H : tally is_export (out (main module_globals cfg w s)) = 0
              /\ tally is_exported (out (main module_globals cfg w s)) = 0).
  { rewrite main_run.
    destruct (os_makedirs w (OUTPUT_DIR cfg)) as [e|]; [split; reflexivity|].
    cbv zeta.
    destruct (shipped_loop_never_exports cfg w (SCALE_FACTORS cfg)
                (mkCounts 0 0 0) s) as [H1 H2].
    destruct (res (main_loop module_globals cfg w (SCALE_FACTORS cfg)
                             (mkCounts 0 0 0) s));
      cbn [out]; rewrite !tally_app, H1, H2; split; reflexivity. }
  destruct H as [H1 H2]. split; [exact H1|]. split; [exact H2|].
  intros Hres.
  destruct (completed_run_summary module_globals cfg w s Hres) as (Hs & _).
  by rewrite H2 in Hs.
Qed.

Lemma X10_witness :
  res (main module_globals shipped empty_host []) = Ok tt
  /\ Print (MsgSuccess 0) ∈ out (main module_globals shipped empty_host []).
Proof.
  assert (H : res (main module_globals shipped empty_host []) = Ok tt)
    by (vm_compute; reflexivity).
  split; [exact H|].
  exact (proj2 (proj2 (X10_script_as_written_never_exports shipped empty_host []))
           H).
Defined.

(** ** The order of processing *)

Lemma processed_names_app (l1 l2 : list event) :
  processed_names (l1 ++ l2) = processed_names l1 ++ processed_names l2.
Proof. unfold processed_names. apply flat_map_app. Qed.

Lemma processed_names_scale_events (f : Q) (objects : list ref) :
  processed_names (scale_events f objects) = [].
Proof. induction objects as [|r rs IH]; [reflexivity | exact IH]. Qed.

Lemma rescale_prop_names (g : scope) (cfg : Config) (w : Host)
      (filename : string) (f : Q) (s : Scene) :
  processed_names (out (rescale_prop g cfg w filename f s)) = [filename].
Proof.
  destruct (rescale_prop_shape g cfg w filename f s); cbn [out];
    rewrite ?processed_names_app, ?processed_names_scale_events; reflexivity.
Qed.

Lemma main_loop_names (g : scope) (cfg : Config) (w : Host)
      (entries : list (string * Q)) :
  forall (c : Counts) (s : Scene),
    processed_names (out (main_loop g cfg w entries c s))
      `prefix_of` names_to_process cfg entries
    /\ (forall c', res (main_loop g cfg w entries c s) = Ok c' ->
                   processed_names (out (main_loop g cfg w entries c s))
                   = names_to_process cfg entries).
Proof.
  unfold names_to_process.
  induction entries as [|[filename f] rest IH]; intros c s.
  - split; [apply prefix_nil | reflexivity].
  - cbn [List.filter].
    change (in_skip_list cfg (filename, f))
      with (bool_decide (filename ∈ SKIP_PROPS cfg)).
    destruct (decide (filename ∈ SKIP_PROPS cfg)) as [Hin|Hout].
    + rewrite bool_decide_eq_true_2 by exact Hin. cbn [negb].
      rewrite main_loop_skip by exact Hin.
      rewrite out_prepend, res_prepend, processed_names_app.
      cbn [processed_names flat_map app]. apply IH.
    + rewrite bool_decide_eq_false_2 by exact Hout. cbn [negb map].
      rewrite main_loop_step by exact Hout.
      pose proof (Hn := rescale_prop_names g cfg w filename f s).
      destruct (rescale_prop g cfg w filename f s) as [[[|]|e] s' l];
        cbn [out] in Hn.
      * rewrite and_then_ok, out_prepend, res_prepend, processed_names_app, Hn.
        cbn [app]. destruct (IH (add_success c) s') as [Hp He].
        split; [by apply prefix_cons|]. intros c' Hc. f_equal. by eapply He.
      * rewrite and_then_ok, out_prepend, res_prepend, processed_names_app, Hn.
        cbn [app]. destruct (IH (add_failed c) s') as [Hp He].
        split; [by apply prefix_cons|]. intros c' Hc. f_equal. by eapply He.
      * unfold and_then. cbn [res out]. rewrite Hn.
        split; [|discriminate]. apply prefix_cons, prefix_nil.
Qed.

Lemma processed_names_main (g : scope) (cfg : Config) (w : Host) (s : Scene) :
  processed_names (out (main g cfg w s))
  = match os_makedirs w (OUTPUT_DIR cfg) with
    | Some _ => []
    | None => processed_names
                (out (main_loop g cfg w (SCALE_FACTORS cfg) (mkCounts 0 0 0) s))
    end.
Proof.
  rewrite main_run.
  destruct (os_makedirs w (OUTPUT_DIR cfg)) as [e|]; [reflexivity|].
  cbv zeta.
  destruct (res (main_loop g cfg w (SCALE_FACTORS cfg) (mkCounts 0 0 0) s));
    cbn [out]; rewrite !processed_names_app; cbn [processed_names flat_map app];
    by rewrite ?app_nil_r.
Qed.

(** X11: [rescale_prop] is called on the entries that are not in the skip
    list, in the order of the configuration, each at most once: the file
    names of the calls of any run form a prefix of that list, and they are
    the whole list when the run completes. *)
Theorem X11_entries_are_processed_in_order
        (g : scope) (cfg : Config) (w : Host) (s : Scene) :
  processed_names (out (main g cfg w s))
    `prefix_of` names_to_process cfg (SCALE_FACTORS cfg)
  /\ (res (main g cfg w s) = Ok tt ->
      processed_names (out (main g cfg w s))
      = names_to_process cfg (SCALE_FACTORS cfg)).
Proof.
  rewrite processed_names_main.
  destruct (main_loop_names g cfg w (SCALE_FACTORS cfg) (mkCounts 0 0 0) s)
    as [Hp He].
  rewrite main_run.
  destruct (os_makedirs w (OUTPUT_DIR cfg)) as [e|].
  - split; [apply prefix_nil | discriminate].
  - split; [exact Hp|]. cbv zeta.
    destruct (res (main_loop g cfg w (SCALE_FACTORS cfg) (mkCounts 0 0 0) s))
      as [c|e] eqn:Hloop; [|discriminate].
    intros _. by apply (He c).
Qed.

Lemma X11_witness :
  res (main repaired_globals shipped odd_host []) = Ok tt
  /\ processed_names (out (main repaired_globals shipped odd_host []))
     = names_to_process shipped (SCALE_FACTORS shipped).
Proof.
  assert (H : res (main repaired_globals shipped odd_host []) = Ok tt)
    by (vm_compute; reflexivity).
  split; [exact H|].
  exact (proj2 (X11_entries_are_processed_in_order
                  repaired_globals shipped odd_host []) H).
Defined.

(** ** Missing input files *)

Lemma main_loop_all_missing (g : scope) (cfg : Config) (w : Host)
      (entries : list (string * Q)) :
  (forall filename, filename ∈ names_to_process cfg entries ->
                    os_path_exists w (input_path cfg w filename) = false) ->
  forall (c : Counts) (s : Scene),
    exists c' : Counts,
      res (main_loop g cfg w entries c s) = Ok c'
      /\ scene_after (main_loop g cfg w entries c s) = s
      /\ tally is_operator (out (main_loop g cfg w entries c s)) = 0
      /\ success_count c' = success_count c
      /\ failed_count c'
         = (failed_count c
            + Z.of_nat (length (names_to_process cfg entries)))%Z.
Proof.
  unfold names_to_process.
  induction entries as [|[filename f] rest IH]; intros Hnone c s.
  - exists c. cbn. repeat split. lia.
  - cbn [List.filter] in Hnone |- *.
    change (in_skip_list cfg (filename, f))
      with (bool_decide (filename ∈ SKIP_PROPS cfg)) in Hnone |- *.
    destruct (decide (filename ∈ SKIP_PROPS cfg)) as [Hin|Hout].
    + rewrite bool_decide_eq_true_2 in Hnone |- * by exact Hin.
      cbn [negb] in Hnone |- *.
      rewrite main_loop_skip by exact Hin.
      destruct (IH Hnone (add_skipped c) s) as (c' & Hr & Hs & Ht & Hsc & Hfc).
      exists c'. rewrite res_prepend, out_prepend, tally_app, Ht.
      repeat split; assumption.
    + rewrite bool_decide_eq_false_2 in Hnone |- * by exact Hout.
      cbn [negb map length fst] in Hnone |- *.
      rewrite main_loop_step by exact Hout.
      assert (Hex : os_path_exists w (os_path_join w (INPUT_DIR cfg) filename)
                    = false) by apply Hnone, list_elem_of_here.
      rewrite (rescale_prop_missing g cfg w filename f s Hex).
      rewrite and_then_ok.
      assert (Hrest : forall x,
                 x ∈ map fst (List.filter
                                (fun e => negb (in_skip_list cfg e)) rest) ->
                 os_path_exists w (input_path cfg w x) = false)
        by (intros x Hx; by apply Hnone, list_elem_of_further).
      destruct (IH Hrest (add_failed c) s) as (c' & Hr & Hs & Ht & Hsc & Hfc).
      exists c'. rewrite res_prepend, out_prepend, tally_app, Ht.
      cbn [add_failed success_count failed_count] in Hsc, Hfc.
      repeat split; try assumption. lia.
Qed.

(** X12: when the output directory can be created and the input file of
    no entry outside the skip list exists, a run of [main] completes
    without one call of a scene, import or export operator and leaves the
    scene as it found it; it reports no success and as many failures as
    there are entries outside the skip list. *)
Theorem X12_missing_input_files_fail_every_entry
        (g : scope) (cfg : Config) (w : Host) (s : Scene) :
  os_makedirs w (OUTPUT_DIR cfg) = None ->
  (forall filename,
      filename ∈ names_to_process cfg (SCALE_FACTORS cfg) ->
      os_path_exists w (input_path cfg w filename) = false) ->
  res (main g cfg w s) = Ok tt
  /\ scene_after (main g cfg w s) = s
  /\ tally is_operator (out (main g cfg w s)) = 0
  /\ Print (MsgSuccess 0) ∈ out (main g cfg w s)
  /\ Print (MsgFailed
              (Z.of_nat (length (names_to_process cfg (SCALE_FACTORS cfg)))))
     ∈ out (main g cfg w s).
Proof.
  intros Hdir Hnone. rewrite main_run, Hdir. cbv zeta.
  destruct (main_loop_all_missing g cfg w (SCALE_FACTORS cfg) Hnone
              (mkCounts 0 0 0) s) as (c' & Hr & Hs & Ht & Hsc & Hfc).
  rewrite Hr. cbn [res scene_after out]. cbn [success_count failed_count] in *.
  rewrite Hsc, Hfc, Z.add_0_l, !tally_app, Ht.
  repeat split; [exact Hs|..]; rewrite !elem_of_app, !elem_of_cons; auto 20.
Qed.

(** Every configured input file is missing but one, which belongs to a
    skipped entry and is never looked at. *)
Lemma X12_witness :
  let cfg := mkConfig (INPUT_DIR shipped) (OUTPUT_DIR shipped)
                      [("lamp.glb", 2); ("Pen.glb", 3 # 25)]%Q
                      (SKIP_PROPS shipped) in
  let w := host_with [(input_file "lamp.glb", Ok [unit_cube])] [] in
  os_makedirs w (OUTPUT_DIR cfg) = None
  /\ (forall filename,
        filename ∈ names_to_process cfg (SCALE_FACTORS cfg) ->
        os_path_exists w (input_path cfg w filename) = false)
  /\ res (main module_globals cfg w [big_box]) = Ok tt
  /\ scene_after (main module_globals cfg w [big_box]) = [big_box]
  /\ tally is_operator (out (main module_globals cfg w [big_box])) = 0
  /\ Print (MsgSuccess 0) ∈ out (main module_globals cfg w [big_box])
  /\ Print (MsgFailed
              (Z.of_nat (length (names_to_process cfg (SCALE_FACTORS cfg)))))
     ∈ out (main module_globals cfg w [big_box]).
Proof.
  intros cfg w.
  assert (H1 : os_makedirs w (OUTPUT_DIR cfg) = None) by reflexivity.
  assert (H2 : forall filename,
             filename ∈ names_to_process cfg (SCALE_FACTORS cfg) ->
             os_path_exists w (input_path cfg w filename) = false).
  { intros filename Hin. apply list_elem_of_singleton in Hin. subst filename.
    reflexivity. }
  split; [exact H1|]. split; [exact H2|].
  exact (X12_missing_input_files_fail_every_entry
           module_globals cfg w [big_box] H1 H2).
Defined.
